(** * DocterDash backend: the doctor controller

    A shallow embedding of [src/controllers/docter.controller.js]: the
    filter object built by [searchDoctors] and the slot computation of
    [getDoctorSlotsForDate] (weekday lookup in the schedule template, slot
    generation per session, marking of booked slots).

    Numbers.  The controller computes with minutes since midnight, in
    IEEE doubles.  A JavaScript number is modelled by [jsnum]: an exact
    integer, or [NaN].  Every operation the controller applies
    (multiplication by 60, addition, [Math.floor(x / 60)], [x % 60], [<],
    [===]) is exact in doubles on integers below 2^53, so on such values the
    result is the one of the program.  Fractions, infinities and integers
    that doubles round are not represented, and [Number] reads signs and
    digits only: [coveredSession] says which sessions the embedding computes
    as the program does, and every property that depends on what a time or a
    duration is read as is stated for covered sessions.  An absent value
    ([undefined]) that only ever reaches arithmetic is [NaN] as well, which
    is what [ToNumber(undefined)] gives.

    Loops.  The [while] loop of the slot generation is run with a bound on
    the number of iterations of its body ([fuel]); [None] says that the
    bound was reached with the loop condition still true. *)

From Stdlib Require Import ZArith Lia List Ascii String DecimalString DecimalZ
  Sorted.
From stdpp Require Import gmap strings list fin_maps.

Local Open Scope string_scope.
Local Open Scope list_scope.
Local Open Scope Z_scope.

(** ** JavaScript numbers *)

Inductive jsnum : Type :=
| NaN
| Num (z : Z).

Definition jsadd (a b : jsnum) : jsnum :=
  match a, b with
  | Num x, Num y => Num (x + y)
  | _, _ => NaN
  end.

Definition jsmul (a b : jsnum) : jsnum :=
  match a, b with
  | Num x, Num y => Num (x * y)
  | _, _ => NaN
  end.

Definition jsneg (a : jsnum) : jsnum :=
  match a with
  | Num x => Num (- x)
  | NaN => NaN
  end.

(** [a < b]: false as soon as one side is [NaN]. *)
Definition jslt (a b : jsnum) : bool :=
  match a, b with
  | Num x, Num y => x <? y
  | _, _ => false
  end.

(** [a === b] on numbers: [NaN] is equal to nothing, itself included. *)
Definition strictEq (a b : jsnum) : bool :=
  match a, b with
  | Num x, Num y => x =? y
  | _, _ => false
  end.

(** [Math.floor(a / k)]: the quotient rounded towards minus infinity. *)
Definition floorDiv (a : jsnum) (k : Z) : jsnum :=
  match a with
  | Num x => Num (x / k)
  | NaN => NaN
  end.

(** [a % k]: the remainder has the sign of [a]. *)
Definition jsrem (a : jsnum) (k : Z) : jsnum :=
  match a with
  | Num x => Num (Z.rem x k)
  | NaN => NaN
  end.

(** ** Strings *)

(** [z.toString()] for an integer: decimal digits, a leading [-] when
    negative. *)
Definition toString (z : Z) : string := NilZero.string_of_int (Z.to_int z).

Definition numToString (a : jsnum) : string :=
  match a with
  | Num z => toString z
  | NaN => "NaN"
  end.

Fixpoint repeatChar (n : nat) (c : ascii) : string :=
  match n with
  | O => EmptyString
  | S n' => String c (repeatChar n' c)
  end.

(** [s.padStart(targetLength, c)] for a pad string of one character. *)
Definition padStart (targetLength : nat) (c : ascii) (s : string) : string :=
  repeatChar (targetLength - String.length s) c +:+ s.

(** [s.split(sep)] for a separator of one character: never empty. *)
Fixpoint split (sep : ascii) (s : string) : list string :=
  match s with
  | EmptyString => [EmptyString]
  | String c s' =>
      if Ascii.eqb c sep then EmptyString :: split sep s'
      else match split sep s' with
           | h :: t => String c h :: t
           | [] => [String c EmptyString]
           end
  end.

(** The decimal digits of [s] as a number; [NaN] when [s] is empty or holds
    another character. *)
Definition digitsValue (s : string) : jsnum :=
  match NilZero.uint_of_string s with
  | Some d => Num (Z.of_uint d)
  | None => NaN
  end.

(** [Number(s)] on the literals the embedding covers: the empty string is 0,
    an optional sign followed by decimal digits is that integer, and any
    other string is [NaN].  JavaScript also reads surrounding white space,
    fractions, exponents, radix prefixes and [Infinity], and rounds integers
    above 2^53: a result [Num z] with [z] below 2^53 in absolute value is the
    result of the program, a result [NaN] need not be ([exactPart]). *)
Definition Number (s : string) : jsnum :=
  match s with
  | EmptyString => Num 0
  | String "-" s' => jsneg (digitsValue s')
  | String "+" s' => digitsValue s'
  | _ => digitsValue s
  end.

(** ** Data model *)

Record Session : Type := {
  startTime : string;
  endTime : string;
  (** a number; [NaN] also stands for an absent field, and [Num 0] for
      [null], which [+=] adds as 0 *)
  slotDurationMinutes : jsnum
}.

Record DayTemplate : Type := {
  dayOfWeek : jsnum;
  isWorking : bool;
  sessions : list Session
}.

Record Doctor : Type := {
  doctorId : string;
  (** [doctor.scheduleTemplate] may be absent: it is read with [?.] *)
  scheduleTemplate : option (list DayTemplate)
}.

Module Appointment.
Record doc : Type := {
  doctorId : string;
  date : string;
  startTime : string
}.
End Appointment.

Inductive SlotStatus : Type :=
| available
| booked.

Record Slot : Type := {
  time : string;
  status : SlotStatus
}.

(** ** Slot generation (getDoctorSlotsForDate, lines 158-177) *)

(** [const [h, m] = t.split(":").map(Number); h * 60 + m].  A missing
    second component is [undefined], hence [NaN] in the sum. *)
Definition timeToMinutes (t : string) : jsnum :=
  let parts := map Number (split ":" t) in
  let h := nth 0 parts NaN in
  let m := nth 1 parts NaN in
  jsadd (jsmul h (Num 60)) m.

(** The slot label pushed by one iteration of the loop. *)
Definition formatSlot (startMin : jsnum) : string :=
  let slotHour := padStart 2 "0" (numToString (floorDiv startMin 60)) in
  let slotMin := padStart 2 "0" (numToString (jsrem startMin 60)) in
  slotHour +:+ ":" +:+ slotMin.

(** [while (startMin < endMin) { push; startMin += d }] on the shared array
    [generatedSlots]; [fuel] bounds the runs of the body. *)
Fixpoint whileLoop (fuel : nat) (startMin endMin d : jsnum)
    (generatedSlots : list string) : option (list string) :=
  if jslt startMin endMin then
    match fuel with
    | O => None
    | S fuel' =>
        whileLoop fuel' (jsadd startMin d) endMin d
          (generatedSlots ++ [formatSlot startMin])
    end
  else Some generatedSlots.

(** The callback of [daySchedule.sessions.forEach]. *)
Definition sessionBody (fuel : nat) (session : Session)
    (generatedSlots : list string) : option (list string) :=
  let startMin := timeToMinutes (startTime session) in
  let endMin := timeToMinutes (endTime session) in
  whileLoop fuel startMin endMin (slotDurationMinutes session) generatedSlots.

Fixpoint forEachSession (fuel : nat) (ss : list Session)
    (generatedSlots : list string) : option (list string) :=
  match ss with
  | [] => Some generatedSlots
  | session :: rest =>
      match sessionBody fuel session generatedSlots with
      | Some generatedSlots' => forEachSession fuel rest generatedSlots'
      | None => None
      end
  end.

(** [generateSlots]: the array starts empty on every request. *)
Definition generateSlots (fuel : nat) (daySchedule : DayTemplate)
    : option (list string) :=
  forEachSession fuel (sessions daySchedule) [].

(** The slots one session pushes on an empty array. *)
Definition sessionSlots (fuel : nat) (session : Session) : option (list string) :=
  sessionBody fuel session [].

Definition mkSession (s e : string) (d : jsnum) : Session :=
  {| startTime := s; endTime := e; slotDurationMinutes := d |}.

Definition workingDay (dow : Z) (ss : list Session) : DayTemplate :=
  {| dayOfWeek := Num dow; isWorking := true; sessions := ss |}.

(** ** Weekday lookup (getDoctorSlotsForDate, lines 145-148) *)

(** The predicate of [find]: [d.dayOfWeek === dayIndex && d.isWorking]. *)
Definition worksOn (dayIndex : jsnum) (d : DayTemplate) : bool :=
  strictEq (dayOfWeek d) dayIndex && isWorking d.

(** [Array.prototype.find]: the first element the predicate accepts. *)
Fixpoint find {A : Type} (p : A -> bool) (l : list A) : option A :=
  match l with
  | [] => None
  | x :: rest => if p x then Some x else find p rest
  end.

(** [doctor.scheduleTemplate?.find(...)]: nothing for an absent template. *)
Definition resolveDaySchedule (template : option (list DayTemplate))
    (dayIndex : jsnum) : option DayTemplate :=
  match template with
  | Some days => find (worksOn dayIndex) days
  | None => None
  end.

(** ** Marking booked slots (getDoctorSlotsForDate, lines 186-191) *)

(** [bookedTimes.includes(slot)] on strings. *)
Fixpoint includes (l : list string) (x : string) : bool :=
  match l with
  | [] => false
  | y :: rest => if String.eqb y x then true else includes rest x
  end.

Definition annotateAvailability (generatedSlots bookedTimes : list string)
    : list Slot :=
  map (fun slot =>
         {| time := slot;
            status := if includes bookedTimes slot then booked else available |})
      generatedSlots.

(** ** Responses and collaborators *)

(** The JSON body sent with [res.status(code).json(...)], with the fields the
    two handlers use; an absent field is [None]. *)
Record Response : Type := {
  statusCode : Z;
  success : bool;
  message : option string;
  totalSlots : option nat;
  slots : option (list Slot);
  total : option nat;
  doctors : option (list Doctor)
}.

Definition reply (code : Z) (ok : bool) (msg : option string) : Response :=
  {| statusCode := code; success := ok; message := msg;
     totalSlots := None; slots := None; total := None; doctors := None |}.

Definition serverError : Response := reply 500 false (Some "Server error").

Definition notAvailable : Response :=
  {| statusCode := 200; success := true;
     message := Some "Doctor not available on selected date";
     totalSlots := None; slots := Some []; total := None; doctors := None |}.

Definition slotsReply (l : list Slot) : Response :=
  {| statusCode := 200; success := true; message := None;
     totalSlots := Some (length l); slots := Some l;
     total := None; doctors := None |}.

(** A call that may throw (a rejected promise): the handlers catch it. *)
Inductive result (A : Type) : Type :=
| Ok (a : A)
| Throw.
Arguments Ok {A} a.
Arguments Throw {A}.

(** A value of a query filter.  [FNear lng lat radiusKm] is the [$near]
    object of the location filter, built from [parseFloat(lng)],
    [parseFloat(lat)] and [radiusKm * 1000]; the three strings are kept as
    they came. *)
Inductive FilterValue : Type :=
| FStr (s : string)
| FBool (b : bool)
| FNear (lng lat radiusKm : string).

(** What the handlers call and do not define: the two models and the clock
    of the host ([new Date(date).getDay()], [NaN] for an invalid date). *)
Record World : Type := {
  getDay : string -> jsnum;
  Doctor_findById : string -> result (option Doctor);
  Doctor_find : gmap string FilterValue -> result (list Doctor);
  (** [Appointment.find({ doctorId, date, status: "booked" })] *)
  Appointment_find : string -> string -> result (list Appointment.doc)
}.

(** A query parameter is truthy when present and not empty. *)
Definition truthy (p : option string) : bool :=
  match p with
  | Some s => negb (String.eqb s "")
  | None => false
  end.

(** [p === lit] for a query parameter and a string literal. *)
Definition isString (p : option string) (lit : string) : bool :=
  match p with
  | Some s => String.eqb s lit
  | None => false
  end.

(** ** getDoctorSlotsForDate *)

Record SlotsRequest : Type := {
  params_id : string;
  query_date : option string
}.

(** Lines 145-197: from the doctor's template, the weekday index and the
    booked appointments to the response.  The appointments are fetched after
    the slots are generated. *)
Definition getAvailableSlots (fuel : nat) (template : option (list DayTemplate))
    (dayIndex : jsnum) (fetchBooked : result (list Appointment.doc))
    : option Response :=
  match resolveDaySchedule template dayIndex with
  | None => Some notAvailable
  | Some daySchedule =>
      match generateSlots fuel daySchedule with
      | None => None
      | Some generatedSlots =>
          match fetchBooked with
          | Throw => Some serverError
          | Ok bookedAppointments =>
              let bookedTimes := map Appointment.startTime bookedAppointments in
              Some (slotsReply (annotateAvailability generatedSlots bookedTimes))
          end
      end
  end.

Definition getDoctorSlotsForDate (fuel : nat) (w : World) (req : SlotsRequest)
    : option Response :=
  let doctorId := params_id req in
  if negb (truthy (query_date req)) then
    Some (reply 400 false (Some "Date is required as query parameter"))
  else
    let date := default "" (query_date req) in
    match Doctor_findById w doctorId with
    | Throw => Some serverError
    | Ok None => Some (reply 404 false (Some "Doctor not found"))
    | Ok (Some doctor) =>
        getAvailableSlots fuel (scheduleTemplate doctor) (getDay w date)
          (Appointment_find w doctorId date)
    end.

(** ** searchDoctors *)

Record SearchQuery : Type := {
  specialty : option string;
  city : option string;
  consultationType : option string;
  supportsEmergency : option string;
  lat : option string;
  lng : option string;
  radiusKm : option string;
  date : option string
}.

(** Lines 70-95: the filter object handed to [Doctor.find]. *)
Definition searchFilters (q : SearchQuery) : gmap string FilterValue :=
  let filters : gmap string FilterValue :=
    <["isAcceptingNewPatients" := FBool true]> (<["status" := FStr "active"]> ∅) in
  let filters :=
    if truthy (specialty q)
    then <["specialties" := FStr (default "" (specialty q))]> filters
    else filters in
  let filters :=
    if truthy (city q)
    then <["clinic.city" := FStr (default "" (city q))]> filters
    else filters in
  let filters :=
    if isString (consultationType q) "telemedicine"
    then <["consultationModes.telemedicine" := FBool true]> filters
    else if isString (consultationType q) "inClinic"
    then <["consultationModes.inClinic" := FBool true]> filters
    else filters in
  let filters :=
    if isString (supportsEmergency q) "true"
    then <["supportsEmergency" := FBool true]> filters
    else filters in
  if truthy (lat q) && truthy (lng q) && truthy (radiusKm q)
  then <["clinic.location" :=
           FNear (default "" (lng q)) (default "" (lat q)) (default "" (radiusKm q))]>
         filters
  else filters.

(** Lines 97-114: the doctors found, kept when the date is given only if
    their template has a working day for its weekday. *)
Definition searchDoctors (w : World) (q : SearchQuery) : Response :=
  match Doctor_find w (searchFilters q) with
  | Throw => serverError
  | Ok found =>
      let kept :=
        if truthy (date q) then
          let dayIndex := getDay w (default "" (date q)) in
          List.filter
            (fun doc => bool_decide (is_Some (resolveDaySchedule (scheduleTemplate doc) dayIndex)))
            found
        else found in
      {| statusCode := 200; success := true; message := None;
         totalSlots := None; slots := None;
         total := Some (length kept); doctors := Some kept |}
  end.

(** ** The slots a session is meant to give *)

(** The number of [k >= 0] with [sm + k * d < em], for [d > 0]. *)
Definition slotCount (sm em d : Z) : nat := Z.to_nat ((em - sm + d - 1) / d).

(** [sm + k * d] for [k = 0, 1, 2, ...] while it stays below [em]. *)
Definition slotMinutes (sm em d : Z) : list Z :=
  map (fun k : nat => sm + Z.of_nat k * d) (seq 0 (slotCount sm em d)).

Definition digitChar (z : Z) : ascii := ascii_of_nat (48 + Z.to_nat z).

Definition twoDigits (z : Z) : string :=
  String (digitChar (z / 10)) (String (digitChar (z mod 10)) EmptyString).

(** The clock reading ["HH:MM"] of minute [x] of the day. *)
Definition clock (x : Z) : string :=
  twoDigits (x / 60) +:+ ":" +:+ twoDigits (x mod 60).

(** ** Auxiliary definitions *)

(** No character of [s] is a colon. *)
Fixpoint noColon (s : string) : bool :=
  match s with
  | EmptyString => true
  | String c s' => negb (Ascii.eqb c ":") && noColon s'
  end.

(** The padded print of each of 0..99 is its two digits. *)
Definition padTable : bool :=
  forallb
    (fun k : nat =>
       String.eqb (padStart 2 "0" (toString (Z.of_nat k))) (twoDigits (Z.of_nat k)))
    (seq 0 100).

(** The minutes at which a session with a positive duration has slots. *)
Definition sessionMinutes (s : Session) : list Z :=
  match timeToMinutes (startTime s), timeToMinutes (endTime s),
        slotDurationMinutes s with
  | Num sm, Num em, Num d => slotMinutes sm em d
  | _, _, _ => []
  end.

(** The entry is for the weekday [dayIndex] and is a working day. *)
Definition matchesDay (dayIndex : jsnum) (d : DayTemplate) : Prop :=
  (exists z, dayOfWeek d = Num z /\ dayIndex = Num z) /\ isWorking d = true.

(** The three parameters of the location filter are given. *)
Definition hasLocation (q : SearchQuery) : bool :=
  truthy (lat q) && truthy (lng q) && truthy (radiusKm q).

(** The keys the filter object can have. *)
Definition filterKeys : list string :=
  [ "status"; "isAcceptingNewPatients"; "specialties"; "clinic.city";
    "consultationModes.telemedicine"; "consultationModes.inClinic";
    "supportsEmergency"; "clinic.location" ].

(** ** Where the embedding computes as the program *)

(** The largest hour or minute part, and the largest duration, for which
    every sum and product of the loop is an integer below 2^53. *)
Definition maxPart : Z := 10 ^ 12.

Definition maxStep : Z := 2 ^ 52.

(** [s] is empty or an optional sign and digits, of at most [maxPart] in
    absolute value: JavaScript reads [s] as the same integer. *)
Definition exactPart (s : string) : bool :=
  match Number s with
  | Num z => Z.abs z <=? maxPart
  | NaN => false
  end.

(** The hour and the minute part of [t] are read exactly. *)
Definition exactTime (t : string) : bool :=
  match split ":" t with
  | h :: m :: _ => exactPart h && exactPart m
  | _ => false
  end.

(** [t] is read exactly, or has no colon: then its minute part is
    [undefined] and the program gets [NaN] whatever the hour part is. *)
Definition coveredTime (t : string) : bool := exactTime t || noColon t.

(** The duration is absent, [NaN], or an integer that the loop adds
    exactly. *)
Definition coveredDuration (d : jsnum) : bool :=
  match d with
  | Num z => Z.abs z <=? maxStep
  | NaN => true
  end.

Definition coveredSession (s : Session) : bool :=
  coveredTime (startTime s) && coveredTime (endTime s)
  && coveredDuration (slotDurationMinutes s).

(** ** Sessions as they are stored *)

(** A session of a stored document: a time that is not a string is [None].
    The duration is as in [Session]. *)
Record StoredSession : Type := {
  storedStartTime : option string;
  storedEndTime : option string;
  storedDuration : jsnum
}.

(** The callback of [forEach] on a stored session: [start.split] and then
    [session.endTime.split] throw a TypeError on a value that is not a
    string, before the loop is reached. *)
Definition storedBody (fuel : nat) (raw : StoredSession)
    (generatedSlots : list string) : option (result (list string)) :=
  match storedStartTime raw with
  | None => Some Throw
  | Some st =>
      match storedEndTime raw with
      | None => Some Throw
      | Some en =>
          Ok <$> sessionBody fuel (mkSession st en (storedDuration raw))
                   generatedSlots
      end
  end.

Fixpoint forEachStored (fuel : nat) (raws : list StoredSession)
    (generatedSlots : list string) : option (result (list string)) :=
  match raws with
  | [] => Some (Ok generatedSlots)
  | raw :: rest =>
      match storedBody fuel raw generatedSlots with
      | Some (Ok generatedSlots') => forEachStored fuel rest generatedSlots'
      | Some Throw => Some Throw
      | None => None
      end
  end.

(** Lines 158-204 for the day found, with [daySchedule.sessions] as stored
    ([None]: not an array, and [forEach] throws): the [catch] answers 500. *)
Definition answerStored (fuel : nat) (sessionsField : option (list StoredSession))
    (fetchBooked : result (list Appointment.doc)) : option Response :=
  match sessionsField with
  | None => Some serverError
  | Some raws =>
      match forEachStored fuel raws [] with
      | None => None
      | Some Throw => Some serverError
      | Some (Ok generatedSlots) =>
          match fetchBooked with
          | Throw => Some serverError
          | Ok bookedAppointments =>
              let bookedTimes := map Appointment.startTime bookedAppointments in
              Some (slotsReply (annotateAvailability generatedSlots bookedTimes))
          end
      end
  end.

(** The stored form of a session. *)
Definition stored (s : Session) : StoredSession :=
  {| storedStartTime := Some (startTime s); storedEndTime := Some (endTime s);
     storedDuration := slotDurationMinutes s |}.

(** ** Sample schedules, doctors and hosts *)

Definition absentDurationDay : DayTemplate :=
  workingDay 1 [mkSession "09:00" "10:00" NaN].

Definition zeroDurationDay : DayTemplate :=
  workingDay 1 [mkSession "09:00" "10:00" (Num 0)].

Definition tuesdayOff : DayTemplate :=
  {| dayOfWeek := Num 2; isWorking := false;
     sessions := [mkSession "08:00" "09:00" (Num 30)] |}.

Definition tuesdayMorning : DayTemplate :=
  workingDay 2 [mkSession "09:00" "10:00" (Num 30)].

Definition tuesdayEvening : DayTemplate :=
  workingDay 2 [mkSession "18:00" "19:00" (Num 30)].

Definition mondayMorning : DayTemplate :=
  workingDay 1 [mkSession "09:00" "10:00" (Num 30)].

(** A doctor whose template has Monday and a Tuesday that is not worked. *)
Definition drMonday : Doctor :=
  {| doctorId := "d1"; scheduleTemplate := Some [mondayMorning; tuesdayOff] |}.

(** A host whose clock says Tuesday, with that doctor and no appointment. *)
Definition tuesdayWorld : World :=
  {| getDay := fun _ => Num 2;
     Doctor_findById := fun id => if String.eqb id "d1" then Ok (Some drMonday)
                                  else Ok None;
     Doctor_find := fun _ => Ok [drMonday];
     Appointment_find := fun _ _ => Ok [] |}.

Definition twoSessionDay : DayTemplate :=
  workingDay 1 [mkSession "09:00" "12:00" (Num 30); mkSession "14:00" "16:00" (Num 30)].

Definition overlappingDay : DayTemplate :=
  workingDay 1 [mkSession "09:30" "10:30" (Num 30); mkSession "09:00" "10:00" (Num 30)].

Definition slotAt (t : string) (st : SlotStatus) : Slot :=
  {| time := t; status := st |}.

(** Doctors with the same template under different identifiers. *)
Definition drTwoSessions (id : string) : Doctor :=
  {| doctorId := id; scheduleTemplate := Some [twoSessionDay] |}.

Definition appt (id t : string) : Appointment.doc :=
  {| Appointment.doctorId := id; Appointment.date := "2025-01-06";
     Appointment.startTime := t |}.

(** A host whose clock says Monday, with one such doctor and the booked
    appointments [b]. *)
Definition mondayWorld (id : string) (b : list Appointment.doc) : World :=
  {| getDay := fun _ => Num 1;
     Doctor_findById := fun _ => Ok (Some (drTwoSessions id));
     Doctor_find := fun _ => Ok [drTwoSessions id];
     Appointment_find := fun _ _ => Ok b |}.

Definition quarterSession : Session := mkSession "08:15" "09:00" (Num 10).

(** ** Definitions for the further properties *)

(** The session has a time window and a step that does not advance: its
    times parse to [sm < em] and its duration is a number not above 0.  On a
    covered session this is when the program enters the loop and its
    condition never becomes false. *)
Definition stuck (s : Session) : bool :=
  match timeToMinutes (startTime s), timeToMinutes (endTime s),
        slotDurationMinutes s with
  | Num sm, Num em, Num d => (sm <? em) && (d <=? 0)
  | _, _, _ => false
  end.

(** A number of iterations that is enough for each session of the list that
    is not stuck. *)
Fixpoint iterationBound (ss : list Session) : nat :=
  match ss with
  | [] => O
  | s :: rest => (S (length (sessionMinutes s)) + iterationBound rest)%nat
  end.

(** [label] is the label of a minute of the time window of [s]. *)
Definition inWindow (s : Session) (label : string) : Prop :=
  exists sm em x,
    timeToMinutes (startTime s) = Num sm
    /\ timeToMinutes (endTime s) = Num em
    /\ sm <= x < em
    /\ label = formatSlot (Num x).

(** The session [s] ends before [t] starts, or when it starts. *)
Definition endsBefore (s t : Session) : Prop :=
  exists em sm,
    timeToMinutes (endTime s) = Num em
    /\ timeToMinutes (startTime t) = Num sm
    /\ em <= sm.

(** The minutes of the slots of a day whose durations are positive. *)
Definition dayMinutes (ss : list Session) : list Z :=
  concat (map sessionMinutes ss).

(** The duration of [s] is a positive integer. *)
Definition positiveDuration (s : Session) : Prop :=
  exists d, slotDurationMinutes s = Num d /\ 0 < d.

(** A parameter with the empty string taken as absent. *)
Definition dropEmpty (p : option string) : option string :=
  if truthy p then p else None.

(** The query [q] without its empty parameters and with the date [d]. *)
Definition withoutEmpty (q : SearchQuery) (d : option string) : SearchQuery :=
  {| specialty := dropEmpty (specialty q);
     city := dropEmpty (city q);
     consultationType := consultationType q;
     supportsEmergency := supportsEmergency q;
     lat := dropEmpty (lat q);
     lng := dropEmpty (lng q);
     radiusKm := dropEmpty (radiusKm q);
     date := d |}.

(** ** getDoctorById *)

(** The JSON body of [getDoctorById]: a found doctor comes without message. *)
Record DoctorReply : Type := {
  replyCode : Z;
  replySuccess : bool;
  replyMessage : option string;
  replyDoctor : option Doctor
}.

(** Lines 32-51; [Doctor.findById] is the lookup of [getDoctorSlotsForDate]
    (there followed by [lean()], which changes the representation only). *)
Definition getDoctorById (w : World) (id : string) : DoctorReply :=
  match Doctor_findById w id with
  | Throw =>
      {| replyCode := 500; replySuccess := false;
         replyMessage := Some "Server error"; replyDoctor := None |}
  | Ok None =>
      {| replyCode := 404; replySuccess := false;
         replyMessage := Some "Doctor not found"; replyDoctor := None |}
  | Ok (Some doctor) =>
      {| replyCode := 200; replySuccess := true;
         replyMessage := None; replyDoctor := Some doctor |}
  end.

(** A host that cannot read the date, with the doctor of [tuesdayWorld]. *)
Definition noDateWorld : World :=
  {| getDay := fun _ => NaN;
     Doctor_findById := fun _ => Ok (Some drMonday);
     Doctor_find := fun _ => Ok [drMonday];
     Appointment_find := fun _ _ => Ok [] |}.

Definition slotsRequest (id date : string) : SlotsRequest :=
  {| params_id := id; query_date := Some date |}.

(** * Properties *)

(** ** The loop *)

Lemma whileLoop_stop fuel a e d acc :
  jslt a e = false -> whileLoop fuel a e d acc = Some acc.
Proof. intros H. destruct fuel; simpl; rewrite H; reflexivity. Qed.

Lemma whileLoop_step fuel a e d acc :
  jslt a e = true ->
  whileLoop (S fuel) a e d acc
  = whileLoop fuel (jsadd a d) e d (acc ++ [formatSlot a]).
Proof. intros H. simpl. rewrite H. reflexivity. Qed.

(** The loop only appends to the array it is given. *)
Lemma whileLoop_acc fuel : forall a e d acc,
  whileLoop fuel a e d acc = app acc <$> whileLoop fuel a e d [].
Proof.
  induction fuel as [|fuel IH]; intros a e d acc; simpl.
  - destruct (jslt a e); simpl; [reflexivity | by rewrite app_nil_r].
  - destruct (jslt a e); simpl; [| by rewrite app_nil_r].
    rewrite (IH _ _ _ (acc ++ _)), (IH _ _ _ [_]).
    destruct (whileLoop fuel (jsadd a d) e d []); simpl; [| reflexivity].
    by rewrite <- app_assoc.
Qed.

(** More fuel does not change a result. *)
Lemma whileLoop_mono fuel : forall fuel' a e d acc out,
  (fuel <= fuel')%nat ->
  whileLoop fuel a e d acc = Some out -> whileLoop fuel' a e d acc = Some out.
Proof.
  induction fuel as [|fuel IH]; intros fuel' a e d acc out Hle; simpl.
  - destruct (jslt a e) eqn:E; [discriminate |].
    intros H. rewrite whileLoop_stop; assumption.
  - destruct (jslt a e) eqn:E.
    + destruct fuel' as [|fuel']; [lia |].
      rewrite whileLoop_step by assumption. apply IH. lia.
    + intros H. rewrite whileLoop_stop; assumption.
Qed.

(** A duration that is not a number ends the loop after one slot. *)
Lemma whileLoop_NaN fuel a e acc :
  jslt a e = true ->
  whileLoop (S fuel) a e NaN acc = Some (acc ++ [formatSlot a]).
Proof.
  intros H. rewrite whileLoop_step by assumption.
  apply whileLoop_stop. by destruct a.
Qed.

(** With a duration of zero or less the condition stays true for ever. *)
Lemma whileLoop_nonpositive fuel : forall a e d acc,
  a < e -> d <= 0 -> whileLoop fuel (Num a) (Num e) (Num d) acc = None.
Proof.
  induction fuel as [|fuel IH]; intros a e d acc Hlt Hd; simpl;
    destruct (Z.ltb_spec a e); try lia; [reflexivity |].
  apply IH; lia.
Qed.

Lemma slotCount_stop sm em d : 0 < d -> em <= sm -> slotCount sm em d = O.
Proof.
  intros Hd Hle. unfold slotCount.
  assert ((em - sm + d - 1) / d <= 0); [| lia].
  apply Z.lt_succ_r. apply Z.div_lt_upper_bound; lia.
Qed.

Lemma slotCount_step sm em d :
  0 < d -> sm < em -> slotCount sm em d = S (slotCount (sm + d) em d).
Proof.
  intros Hd Hlt. unfold slotCount.
  replace (em - sm + d - 1) with ((em - (sm + d) + d - 1) + 1 * d) by lia.
  rewrite Z.div_add by lia.
  assert (0 <= (em - (sm + d) + d - 1) / d) by (apply Z.div_pos; lia).
  lia.
Qed.

Lemma slotCount_lt sm em d (k : nat) :
  0 < d -> (k < slotCount sm em d)%nat <-> sm + Z.of_nat k * d < em.
Proof.
  intros Hd. unfold slotCount. split.
  - intros H.
    assert (Hk : Z.of_nat k + 1 <= (em - sm + d - 1) / d) by lia.
    assert (d * (Z.of_nat k + 1) <= em - sm + d - 1); [| lia].
    etransitivity; [apply Z.mul_le_mono_nonneg_l; [lia | exact Hk] |].
    apply Z.mul_div_le; lia.
  - intros H.
    assert (Z.of_nat k + 1 <= (em - sm + d - 1) / d); [| lia].
    apply Z.div_le_lower_bound; lia.
Qed.

Lemma slotMinutes_stop sm em d : 0 < d -> em <= sm -> slotMinutes sm em d = [].
Proof. intros Hd Hle. unfold slotMinutes. by rewrite slotCount_stop. Qed.

Lemma slotMinutes_step sm em d :
  0 < d -> sm < em -> slotMinutes sm em d = sm :: slotMinutes (sm + d) em d.
Proof.
  intros Hd Hlt. unfold slotMinutes. rewrite slotCount_step by assumption.
  simpl. f_equal; [lia |].
  rewrite <- seq_shift, List.map_map. apply List.map_ext. intros k. lia.
Qed.

(** With a positive duration the loop ends and pushes the expected slots. *)
Lemma whileLoop_positive em d : 0 < d -> forall fuel sm acc,
  (slotCount sm em d <= fuel)%nat ->
  whileLoop fuel (Num sm) (Num em) (Num d) acc
  = Some (acc ++ map (fun x => formatSlot (Num x)) (slotMinutes sm em d)).
Proof.
  intros Hd. induction fuel as [|fuel IH]; intros sm acc Hfuel.
  - destruct (Z.lt_ge_cases sm em) as [Hlt|Hge].
    + rewrite slotCount_step in Hfuel by assumption. lia.
    + rewrite whileLoop_stop, slotMinutes_stop, app_nil_r; try done.
      simpl. apply Z.ltb_ge. lia.
  - destruct (Z.lt_ge_cases sm em) as [Hlt|Hge].
    + rewrite whileLoop_step by (simpl; apply Z.ltb_lt; lia).
      rewrite slotCount_step in Hfuel by assumption.
      simpl jsadd. rewrite IH by lia.
      rewrite (slotMinutes_step sm) by assumption. simpl.
      by rewrite <- app_assoc.
    + rewrite whileLoop_stop, slotMinutes_stop, app_nil_r; try done.
      simpl. apply Z.ltb_ge. lia.
Qed.

(** ** Printing and reading numbers *)

Lemma noColon_app a b : noColon (a +:+ b) = noColon a && noColon b.
Proof.
  induction a as [|c a IH]; simpl; [reflexivity |].
  rewrite IH. by rewrite andb_assoc.
Qed.

Lemma noColon_uint d : noColon (NilEmpty.string_of_uint d) = true.
Proof. induction d; simpl; auto. Qed.

Lemma noColon_zeros k : noColon (repeatChar k "0") = true.
Proof. induction k; simpl; auto. Qed.

Lemma uint_string_nonempty d :
  d <> Decimal.Nil -> (1 <= String.length (NilEmpty.string_of_uint d))%nat.
Proof. destruct d; simpl; intros; try lia; congruence. Qed.

Lemma NilZero_NilEmpty d :
  d <> Decimal.Nil -> NilZero.string_of_uint d = NilEmpty.string_of_uint d.
Proof. destruct d; simpl; intros; congruence. Qed.

Lemma to_uint_nonnil p : Pos.to_uint p <> Decimal.Nil.
Proof.
  intros H. pose proof (DecimalPos.Unsigned.to_uint_nonnil p). congruence.
Qed.

Lemma zeros_uint k d :
  repeatChar k "0" +:+ NilEmpty.string_of_uint d
  = NilEmpty.string_of_uint (Nat.iter k Decimal.D0 d).
Proof.
  induction k as [|k IH]; [reflexivity |].
  change (String "0" (repeatChar k "0" +:+ NilEmpty.string_of_uint d)
          = String "0" (NilEmpty.string_of_uint (Nat.iter k Decimal.D0 d))).
  by rewrite IH.
Qed.

Lemma of_uint_zeros k d : Z.of_uint (Nat.iter k Decimal.D0 d) = Z.of_uint d.
Proof. induction k as [|k IH]; simpl; [reflexivity | exact IH]. Qed.

Lemma zeros_nonnil k d : d <> Decimal.Nil -> Nat.iter k Decimal.D0 d <> Decimal.Nil.
Proof. destruct k; simpl; [auto | discriminate]. Qed.

Lemma digitsValue_uint d :
  d <> Decimal.Nil -> digitsValue (NilEmpty.string_of_uint d) = Num (Z.of_uint d).
Proof.
  intros Hd. unfold digitsValue, NilZero.uint_of_string.
  destruct (NilEmpty.string_of_uint d) eqn:E.
  - destruct d; simpl in E; congruence.
  - rewrite <- E, NilEmpty.usu. reflexivity.
Qed.

(** [Number] reads a nonempty string of digits as its value. *)
Lemma Number_uint d :
  d <> Decimal.Nil -> Number (NilEmpty.string_of_uint d) = Num (Z.of_uint d).
Proof.
  intros Hd. rewrite <- (digitsValue_uint d Hd).
  destruct d; try congruence; reflexivity.
Qed.

Lemma of_uint_to_uint p : Z.of_uint (Pos.to_uint p) = Z.pos p.
Proof. exact (DecimalZ.of_to (Z.pos p)). Qed.

(** Reading back a number printed with [toString] and padded with zeros
    gives the number. *)
Lemma Number_padStart_toString z :
  Number (padStart 2 "0" (toString z)) = Num z.
Proof.
  destruct z as [|p|p]; [reflexivity | |].
  - unfold toString, padStart. simpl Z.to_int. simpl NilZero.string_of_int.
    rewrite NilZero_NilEmpty by apply to_uint_nonnil.
    rewrite zeros_uint, Number_uint by (apply zeros_nonnil, to_uint_nonnil).
    by rewrite of_uint_zeros, of_uint_to_uint.
  - unfold toString, padStart. simpl Z.to_int. simpl NilZero.string_of_int.
    rewrite NilZero_NilEmpty by apply to_uint_nonnil.
    pose proof (uint_string_nonempty _ (to_uint_nonnil p)) as Hlen.
    simpl String.length.
    replace (2 - S _)%nat with O by lia. simpl.
    rewrite digitsValue_uint by apply to_uint_nonnil.
    by rewrite of_uint_to_uint.
Qed.

Lemma noColon_padStart_toString z :
  noColon (padStart 2 "0" (toString z)) = true.
Proof.
  unfold padStart. rewrite noColon_app, noColon_zeros. simpl.
  destruct z as [|p|p]; [reflexivity | |]; unfold toString; simpl Z.to_int;
    simpl NilZero.string_of_int;
    rewrite NilZero_NilEmpty by apply to_uint_nonnil; simpl;
    apply noColon_uint.
Qed.

Lemma split_noColon_single b : noColon b = true -> split ":" b = [b].
Proof.
  induction b as [|c b IH]; simpl; [reflexivity |].
  intros [Hc Hb]%andb_prop. destruct (Ascii.eqb c ":"); [discriminate |].
  by rewrite IH.
Qed.

Lemma split_noColon a b :
  noColon a = true -> split ":" (a +:+ String ":" b) = a :: split ":" b.
Proof.
  induction a as [|c a IH]; simpl; [reflexivity |].
  intros [Hc Ha]%andb_prop. destruct (Ascii.eqb c ":"); [discriminate |].
  by rewrite IH.
Qed.

(** The controller's own parser reads a generated label back as
    [60 * floor(x / 60) + x % 60]. *)
Lemma timeToMinutes_formatSlot x :
  timeToMinutes (formatSlot (Num x)) = Num (x / 60 * 60 + Z.rem x 60).
Proof.
  unfold timeToMinutes, formatSlot. simpl floorDiv. simpl jsrem. simpl numToString.
  change (":" +:+ ?s) with (String ":" s).
  rewrite split_noColon by apply noColon_padStart_toString.
  rewrite split_noColon_single by apply noColon_padStart_toString.
  simpl. by rewrite !Number_padStart_toString.
Qed.

Lemma timeToMinutes_formatSlot_nonneg x :
  0 <= x -> timeToMinutes (formatSlot (Num x)) = Num x.
Proof.
  intros Hx. rewrite timeToMinutes_formatSlot. f_equal.
  rewrite Z.rem_mod_nonneg by lia.
  pose proof (Z.div_mod x 60). lia.
Qed.

(** Distinct minutes have distinct labels, negative ones included. *)
Lemma formatSlot_inj x y : formatSlot (Num x) = formatSlot (Num y) -> x = y.
Proof.
  intros H. apply (f_equal timeToMinutes) in H.
  rewrite !timeToMinutes_formatSlot in H. injection H as H.
  Z.to_euclidean_division_equations. lia.
Qed.

(** ** Labels of clock times *)

Lemma padStart_twoDigits q :
  0 <= q < 100 -> padStart 2 "0" (toString q) = twoDigits q.
Proof.
  intros Hq.
  assert (Htab : padTable = true) by (vm_compute; reflexivity).
  unfold padTable in Htab. rewrite forallb_forall in Htab.
  specialize (Htab (Z.to_nat q)).
  rewrite Z2Nat.id in Htab by lia.
  apply String.eqb_eq, Htab, in_seq. lia.
Qed.

(** A minute of a clock that shows up to 99 hours is labelled ["HH:MM"]. *)
Lemma formatSlot_clock x : 0 <= x < 6000 -> formatSlot (Num x) = clock x.
Proof.
  intros Hx. unfold formatSlot, clock. simpl.
  rewrite Z.rem_mod_nonneg by lia.
  rewrite !padStart_twoDigits; [reflexivity | |].
  - pose proof (Z.mod_pos_bound x 60). lia.
  - split; [apply Z.div_pos; lia | apply Z.div_lt_upper_bound; lia].
Qed.

(** ** The sessions of a day *)

Lemma forEachSession_acc fuel ss : forall acc,
  forEachSession fuel ss acc = app acc <$> forEachSession fuel ss [].
Proof.
  induction ss as [|s ss IH]; intros acc; simpl.
  - by rewrite app_nil_r.
  - unfold sessionBody. rewrite whileLoop_acc.
    destruct (whileLoop fuel _ _ _ []) as [out|]; simpl; [| reflexivity].
    rewrite (IH (acc ++ out)), (IH out).
    destruct (forEachSession fuel ss []); simpl; [| reflexivity].
    by rewrite app_assoc.
Qed.

(** The slots of a day are those of its sessions, one session after the
    other. *)
Lemma forEachSession_concat fuel ss :
  forEachSession fuel ss [] = @concat string <$> mapM (sessionSlots fuel) ss.
Proof.
  induction ss as [|s ss IH]; [reflexivity |].
  cbn [forEachSession mapM].
  change (sessionSlots fuel s) with (sessionBody fuel s []).
  destruct (sessionBody fuel s []) as [out|]; [| reflexivity].
  rewrite forEachSession_acc, IH.
  destruct (mapM (sessionSlots fuel) ss); reflexivity.
Qed.

Lemma forEachSession_mono fuel fuel' ss : forall acc out,
  (fuel <= fuel')%nat ->
  forEachSession fuel ss acc = Some out -> forEachSession fuel' ss acc = Some out.
Proof.
  induction ss as [|s ss IH]; intros acc out Hle; simpl; [done |].
  unfold sessionBody.
  destruct (whileLoop fuel _ _ _ acc) as [mid|] eqn:E; [| discriminate].
  rewrite (whileLoop_mono _ _ _ _ _ _ _ Hle E). by apply IH.
Qed.

(** Two runs that both end give the same slots, whatever their fuel. *)
Lemma generateSlots_fuel fuel1 fuel2 day out1 out2 :
  generateSlots fuel1 day = Some out1 ->
  generateSlots fuel2 day = Some out2 -> out1 = out2.
Proof.
  unfold generateSlots. intros H1 H2.
  apply (forEachSession_mono _ (Nat.max fuel1 fuel2)) in H1; [| lia].
  apply (forEachSession_mono _ (Nat.max fuel1 fuel2)) in H2; [| lia].
  congruence.
Qed.

Lemma generateSlots_single fuel day s :
  sessions day = [s] -> generateSlots fuel day = sessionSlots fuel s.
Proof.
  intros H. unfold generateSlots, sessionSlots. rewrite H. simpl.
  by destruct (sessionBody fuel s []).
Qed.

(** ** One session with a positive duration *)

Lemma slotMinutes_length sm em d : length (slotMinutes sm em d) = slotCount sm em d.
Proof. unfold slotMinutes. by rewrite length_map, length_seq. Qed.

Lemma slotMinutes_lookup sm em d (k : nat) x :
  0 < d ->
  slotMinutes sm em d !! k = Some x <-> x = sm + Z.of_nat k * d /\ x < em.
Proof.
  intros Hd. unfold slotMinutes. rewrite list_lookup_fmap. split.
  - intros H. destruct (seq 0 (slotCount sm em d) !! k) as [j|] eqn:E;
      [| discriminate].
    apply lookup_seq in E as [-> Hk]. simpl in H. injection H as <-.
    split; [reflexivity |]. by apply slotCount_lt.
  - intros [-> Hlt]. apply slotCount_lt in Hlt; [| assumption].
    rewrite (proj2 (lookup_seq 0 _ k k)); [reflexivity | by split].
Qed.

Lemma slotMinutes_increasing sm em d (i j : nat) x y :
  0 < d ->
  slotMinutes sm em d !! i = Some x -> slotMinutes sm em d !! j = Some y ->
  (i < j)%nat -> x < y.
Proof.
  intros Hd [-> _]%slotMinutes_lookup [-> _]%slotMinutes_lookup Hij; try done.
  nia.
Qed.

Lemma slotMinutes_NoDup sm em d : 0 < d -> NoDup (slotMinutes sm em d).
Proof.
  intros Hd. unfold slotMinutes. apply NoDup_fmap_2_strong; [| apply NoDup_seq].
  intros i j _ _ H. nia.
Qed.

Lemma formatSlot_NoDup mins :
  NoDup mins -> NoDup (map (fun x => formatSlot (Num x)) mins).
Proof.
  intros H. apply NoDup_fmap_2_strong; [| assumption].
  intros x y _ _. apply formatSlot_inj.
Qed.

Lemma sessionSlots_positive s d fuel :
  slotDurationMinutes s = Num d -> 0 < d ->
  (length (sessionMinutes s) <= fuel)%nat ->
  sessionSlots fuel s = Some (map (fun x => formatSlot (Num x)) (sessionMinutes s)).
Proof.
  intros Hs Hd. unfold sessionSlots, sessionBody, sessionMinutes. rewrite Hs.
  destruct (timeToMinutes (startTime s)) as [|sm];
    [intros _; by apply whileLoop_stop |].
  destruct (timeToMinutes (endTime s)) as [|em];
    [intros _; by apply whileLoop_stop |].
  rewrite slotMinutes_length. intros Hfuel.
  by rewrite whileLoop_positive.
Qed.



(** ** Sessions that give nothing, and sessions that never end *)

Lemma jslt_irrefl a : jslt a a = false.
Proof. destruct a as [|x]; simpl; [reflexivity | apply Z.ltb_irrefl]. Qed.

Lemma forEachSession_app fuel ss1 ss2 : forall acc,
  forEachSession fuel (ss1 ++ ss2) acc
  = forEachSession fuel ss1 acc ≫= forEachSession fuel ss2.
Proof.
  induction ss1 as [|s ss1 IH]; intros acc; simpl; [reflexivity |].
  destruct (sessionBody fuel s acc); simpl; [apply IH | reflexivity].
Qed.

Lemma timeToMinutes_noColon t : noColon t = true -> timeToMinutes t = NaN.
Proof.
  intros H. unfold timeToMinutes. rewrite split_noColon_single by assumption.
  simpl. by destruct (jsmul (Number t) (Num 60)).
Qed.

Lemma jslt_NaN_r a : jslt a NaN = false.
Proof. by destruct a. Qed.

(** A time that is read exactly is read as an integer. *)
Lemma exactTime_minutes t :
  exactTime t = true ->
  exists z, timeToMinutes t = Num z /\ Z.abs z <= 61 * maxPart.
Proof.
  unfold exactTime, timeToMinutes, exactPart.
  destruct (split ":" t) as [|h [|m rest]]; try discriminate. simpl.
  destruct (Number h) as [|x]; [discriminate |].
  destruct (Number m) as [|y]; [rewrite andb_false_r; discriminate |].
  intros [Hx Hy]%andb_prop. apply Z.leb_le in Hx, Hy.
  exists (x * 60 + y). split; [reflexivity | lia].
Qed.

(** C2 does not hold as stated: a session from 09:00 to 10:00 whose
    duration is absent (or [NaN]), hence not a positive integer, is not
    skipped; it gives the slot 09:00. *)
Lemma absent_duration_gives_a_slot :
  generateSlots 1 absentDurationDay = Some ["09:00"].
Proof. vm_compute. reflexivity. Qed.

(** C2, as the controller has it: a session whose two times are strings and
    whose start time is the same string as its end time, or is not strictly
    below it when both are read exactly (equal or inverted times), or one of
    whose times has no colon, pushes no slot, whatever its duration and with
    no iteration of the loop; its callback does not throw, and the other
    sessions of the day give what they give without it. *)
Theorem session_without_window_gives_nothing (fuel : nat) (s : Session) :
  startTime s = endTime s
  \/ (noColon (startTime s) = true \/ noColon (endTime s) = true)
  \/ (exactTime (startTime s) = true /\ exactTime (endTime s) = true
      /\ jslt (timeToMinutes (startTime s)) (timeToMinutes (endTime s)) = false) ->
  sessionSlots fuel s = Some []
  /\ sessionSlots O s = Some []
  /\ (forall acc, storedBody fuel (stored s) acc = Some (Ok acc))
  /\ (forall before after acc,
        forEachSession fuel (before ++ s :: after) acc
        = forEachSession fuel (before ++ after) acc)
  /\ (forall day day' before after,
        sessions day = before ++ s :: after ->
        sessions day' = before ++ after ->
        generateSlots fuel day = generateSlots fuel day').
Proof.
  intros H.
  assert (Hlt : jslt (timeToMinutes (startTime s)) (timeToMinutes (endTime s))
                = false).
  { destruct H as [H|[[H|H]|(_ & _ & H)]]; [| | | exact H].
    - rewrite H. apply jslt_irrefl.
    - by rewrite (timeToMinutes_noColon _ H).
    - rewrite (timeToMinutes_noColon _ H). apply jslt_NaN_r. }
  assert (Hskip : forall f acc, sessionBody f s acc = Some acc)
    by (intros f acc; by apply whileLoop_stop).
  assert (Hmid : forall before after acc,
            forEachSession fuel (before ++ s :: after) acc
            = forEachSession fuel (before ++ after) acc).
  { intros before after acc. rewrite !forEachSession_app.
    destruct (forEachSession fuel before acc) as [mid|]; simpl; [| reflexivity].
    by rewrite Hskip. }
  repeat split; try apply Hskip; [| exact Hmid |].
  - intros acc. unfold storedBody, stored. cbn [storedStartTime storedEndTime
      storedDuration]. destruct s as [st en d]. unfold mkSession.
    cbn [startTime endTime slotDurationMinutes]. by rewrite Hskip.
  - intros day day' before after Hd Hd'. unfold generateSlots.
    rewrite Hd, Hd'. apply Hmid.
Qed.

(** C2 at a session from 10:00 to 10:00 with a duration of 0. *)
Lemma session_without_window_witness :
  sessionSlots 5 (mkSession "10:00" "10:00" (Num 0)) = Some [].
Proof.
  exact (proj1 (session_without_window_gives_nothing 5
                  (mkSession "10:00" "10:00" (Num 0)) (or_introl eq_refl))).
Defined.

(** C3 fails on a session from 09:00 to 10:00 with a duration of 0: the loop
    never leaves 09:00 and its condition stays true, so no bound on its
    iterations lets the slot generation end (the program leaves the loop
    only when the array cannot grow any more). *)
Theorem zero_duration_never_ends (fuel : nat) :
  generateSlots fuel zeroDurationDay = None
  /\ (forall fetched,
        getAvailableSlots fuel (Some [zeroDurationDay]) (Num 1) fetched = None).
Proof.
  assert (H : generateSlots fuel zeroDurationDay = None).
  { unfold generateSlots, zeroDurationDay. simpl.
    unfold sessionBody. simpl slotDurationMinutes.
    change (timeToMinutes (startTime (mkSession "09:00" "10:00" (Num 0))))
      with (Num 540).
    change (timeToMinutes (endTime (mkSession "09:00" "10:00" (Num 0))))
      with (Num 600).
    rewrite whileLoop_nonpositive by lia. reflexivity. }
  split; [exact H |].
  intros fetched. unfold getAvailableSlots.
  change (resolveDaySchedule (Some [zeroDurationDay]) (Num 1))
    with (Some zeroDurationDay).
  cbv beta iota. by rewrite H.
Qed.



(** ** Booked and available slots *)

Lemma includes_In l x : includes l x = true <-> In x l.
Proof.
  induction l as [|y l IH]; simpl; [split; [discriminate | tauto] |].
  destruct (String.eqb_spec y x) as [->|Hne]; [tauto |].
  rewrite IH. split; [tauto | intros [H|H]; [congruence | exact H]].
Qed.

Lemma includes_same_members l1 l2 x :
  (forall t, In t l1 <-> In t l2) -> includes l1 x = includes l2 x.
Proof.
  intros H. apply eq_true_iff_eq. rewrite !includes_In. apply H.
Qed.

Lemma annotateAvailability_times G B : map time (annotateAvailability G B) = G.
Proof.
  unfold annotateAvailability. rewrite List.map_map. simpl. apply List.map_id.
Qed.

Lemma annotateAvailability_same_members G B1 B2 :
  (forall t, In t B1 <-> In t B2) ->
  annotateAvailability G B1 = annotateAvailability G B2.
Proof.
  intros H. unfold annotateAvailability. apply List.map_ext. intros slot.
  by rewrite (includes_same_members B1 B2 slot H).
Qed.

(** C4: the i-th annotated slot carries the i-th generated time; it is
    booked exactly when that string is one of the booked start times and
    available exactly when it is not.  Membership is equality of strings:
    9:30, 09:30 with a space and 0930 do not book 09:30. *)
Theorem annotateAvailability_booked_iff (G B : list string) :
  length (annotateAvailability G B) = length G
  /\ (forall (i : nat) slot, annotateAvailability G B !! i = Some slot ->
        G !! i = Some (time slot)
        /\ (status slot = booked <-> In (time slot) B)
        /\ (status slot = available <-> ~ In (time slot) B))
  /\ annotateAvailability ["09:30"; "10:00"] ["9:30"; "09:30 "; "0930"; "10:00"]
     = [ {| time := "09:30"; status := available |};
         {| time := "10:00"; status := booked |} ].
Proof.
  split; [unfold annotateAvailability; by rewrite length_map |].
  split; [| vm_compute; reflexivity].
  intros i slot Hi. unfold annotateAvailability in Hi.
  rewrite list_lookup_fmap in Hi.
  destruct (G !! i) as [t|]; [| discriminate].
  simpl in Hi. injection Hi as <-. simpl. split; [reflexivity |].
  rewrite <- includes_In. destruct (includes B t); split; split; try done.
Qed.

(** ** The working day of a date *)

Lemma worksOn_matchesDay dayIndex d :
  worksOn dayIndex d = true <-> matchesDay dayIndex d.
Proof.
  unfold worksOn, matchesDay. rewrite andb_true_iff.
  destruct (dayOfWeek d) as [|x], dayIndex as [|y]; simpl;
    try (split; [intros [H _]; discriminate
                | intros [(z & H1 & H2) _]; discriminate]).
  rewrite Z.eqb_eq. split.
  - intros [-> H]. split; [by exists y | exact H].
  - intros [(z & H1 & H2) H]. split; congruence.
Qed.

Lemma find_Some {A} (p : A -> bool) l x :
  find p l = Some x <->
  exists before after,
    l = before ++ x :: after /\ p x = true
    /\ Forall (fun y => p y = false) before.
Proof.
  induction l as [|y l IH]; simpl.
  - split; [discriminate | intros (before & after & H & _)].
    by destruct before.
  - destruct (p y) eqn:E.
    + split.
      * intros [= ->]. exists [], l. repeat split; auto.
      * intros (before & after & H & Hx & Hb).
        destruct before as [|b before]; simpl in H; injection H as -> ->;
          [reflexivity |].
        apply Forall_cons in Hb as [Hb _]. congruence.
    + rewrite IH. split.
      * intros (before & after & -> & Hx & Hb).
        exists (y :: before), after. repeat split; auto.
      * intros (before & after & H & Hx & Hb).
        destruct before as [|b before]; simpl in H; injection H as -> ->;
          [congruence |].
        apply Forall_cons in Hb as [_ Hb]. by exists before, after.
Qed.

Lemma find_None {A} (p : A -> bool) l :
  find p l = None <-> Forall (fun y => p y = false) l.
Proof.
  induction l as [|y l IH]; simpl; [split; auto |].
  rewrite Forall_cons. destruct (p y); [split; [discriminate | intros [? _]; discriminate] |].
  rewrite IH. tauto.
Qed.

(** C6: the lookup returns the entry [d] exactly when [d] stands in the
    template after entries none of which is a working day for the weekday
    index of the date, and is one itself; it returns nothing exactly when
    no entry is one.  With several entries for one weekday the first
    working one is returned. *)
Theorem resolveDaySchedule_first_match (days : list DayTemplate) (w : World)
    (date : string) :
  (forall d, resolveDaySchedule (Some days) (getDay w date) = Some d <->
     exists before after,
       days = before ++ d :: after /\ matchesDay (getDay w date) d
       /\ Forall (fun d' => ~ matchesDay (getDay w date) d') before)
  /\ (resolveDaySchedule (Some days) (getDay w date) = None <->
      Forall (fun d' => ~ matchesDay (getDay w date) d') days)
  /\ resolveDaySchedule
       (Some [mondayMorning; tuesdayOff; tuesdayMorning; tuesdayEvening]) (Num 2)
     = Some tuesdayMorning.
Proof.
  set (dayIndex := getDay w date).
  assert (Hneg : forall l,
            Forall (fun y => worksOn dayIndex y = false) l
            <-> Forall (fun d' => ~ matchesDay dayIndex d') l).
  { intros l. apply Forall_iff. intros d.
    rewrite <- worksOn_matchesDay. by destruct (worksOn dayIndex d). }
  split; [| split; [| reflexivity]].
  - intros d. simpl. rewrite find_Some. split.
    + intros (before & after & H & Hd & Hb). exists before, after.
      rewrite <- worksOn_matchesDay, <- Hneg. auto.
    + intros (before & after & H & Hd & Hb). exists before, after.
      rewrite worksOn_matchesDay, Hneg. auto.
  - simpl. by rewrite find_None, Hneg.
Qed.

(** ** The whole answer *)

Lemma getAvailableSlots_scheduled fuel template dayIndex fetched day r :
  resolveDaySchedule template dayIndex = Some day ->
  getAvailableSlots fuel template dayIndex fetched = Some r ->
  r = serverError \/ exists l, r = slotsReply l.
Proof.
  unfold getAvailableSlots. intros ->.
  destruct (generateSlots fuel day); [| discriminate].
  destruct fetched; intros [= <-]; eauto.
Qed.

(** C5: when the date is given, the doctor exists and the template has no
    working day for the weekday of the date, the request is answered with
    status 200, success, an empty slot list and the message that the doctor
    is not available; no answer that lists a slot, and no answer computed
    from a working day (even one without slots), is that answer. *)
Theorem no_working_day_not_available (fuel : nat) (w : World) (req : SlotsRequest)
    (date : string) (doctor : Doctor) :
  query_date req = Some date ->
  date <> "" ->
  Doctor_findById w (params_id req) = Ok (Some doctor) ->
  resolveDaySchedule (scheduleTemplate doctor) (getDay w date) = None ->
  getDoctorSlotsForDate fuel w req = Some notAvailable
  /\ statusCode notAvailable = 200
  /\ success notAvailable = true
  /\ slots notAvailable = Some []
  /\ message notAvailable = Some "Doctor not available on selected date"
  /\ (forall r l, slots r = Some l -> l <> [] -> r <> notAvailable)
  /\ (forall fuel' template' dayIndex' fetched day r,
        resolveDaySchedule template' dayIndex' = Some day ->
        getAvailableSlots fuel' template' dayIndex' fetched = Some r ->
        r <> notAvailable).
Proof.
  intros Hq Hdate Hdoc Hnone. repeat split.
  - unfold getDoctorSlotsForDate. rewrite Hq. simpl.
    destruct (String.eqb_spec date "") as [->|_]; [done |]. simpl.
    rewrite Hdoc. unfold getAvailableSlots. by rewrite Hnone.
  - intros r l Hr Hl ->. simpl in Hr. congruence.
  - intros fuel' template' dayIndex' fetched day r Hday Hr ->.
    destruct (getAvailableSlots_scheduled _ _ _ _ _ _ Hday Hr) as [H|[l H]];
      discriminate.
Qed.

(** C5 at a Tuesday for a doctor who works on Mondays only. *)
Lemma no_working_day_witness :
  getDoctorSlotsForDate 0 tuesdayWorld
    {| params_id := "d1"; query_date := Some "2025-01-07" |}
  = Some notAvailable.
Proof.
  refine (proj1 (no_working_day_not_available 0 tuesdayWorld
                   {| params_id := "d1"; query_date := Some "2025-01-07" |}
                   "2025-01-07" drMonday eq_refl _ eq_refl eq_refl)).
  discriminate.
Defined.

(** C7: the slots of a day are the slots of its sessions, appended in the
    order of the sessions, each session running on its own; nothing is
    sorted or removed (two overlapping sessions keep their order and their
    repeated times), and the annotated list has the generated times in the
    generated order.  The day 09:00-12:00 and 14:00-16:00 by 30 minutes with
    09:30 and 15:00 booked gives the ten slots of the scenario. *)
Theorem slots_follow_session_order :
  (forall fuel day,
     generateSlots fuel day
     = @concat string <$> mapM (sessionSlots fuel) (sessions day))
  /\ (forall fuel day day1 day2,
        sessions day = sessions day1 ++ sessions day2 ->
        generateSlots fuel day
        = (out1 ← generateSlots fuel day1;
           out2 ← generateSlots fuel day2; Some (out1 ++ out2)))
  /\ (forall G B, map time (annotateAvailability G B) = G)
  /\ generateSlots 2 overlappingDay = Some ["09:30"; "10:00"; "09:00"; "09:30"]
  /\ (G ← generateSlots 6 twoSessionDay;
      Some (annotateAvailability G ["09:30"; "15:00"]))
     = Some [ slotAt "09:00" available; slotAt "09:30" booked;
              slotAt "10:00" available; slotAt "10:30" available;
              slotAt "11:00" available; slotAt "11:30" available;
              slotAt "14:00" available; slotAt "14:30" available;
              slotAt "15:00" booked; slotAt "15:30" available ].
Proof.
  split; [intros; apply forEachSession_concat |].
  split; [| split; [apply annotateAvailability_times |
                    split; vm_compute; reflexivity]].
  intros fuel day day1 day2 H. unfold generateSlots.
  rewrite H, forEachSession_app.
  destruct (forEachSession fuel (sessions day1) []) as [out1|]; simpl;
    [| reflexivity].
  rewrite forEachSession_acc.
  by destruct (forEachSession fuel (sessions day2) []).
Qed.

(** ** Two requests *)

Lemma getAvailableSlots_mono fuel fuel' template dayIndex fetched r :
  (fuel <= fuel')%nat ->
  getAvailableSlots fuel template dayIndex fetched = Some r ->
  getAvailableSlots fuel' template dayIndex fetched = Some r.
Proof.
  intros Hle. unfold getAvailableSlots.
  destruct (resolveDaySchedule template dayIndex) as [day|]; [| done].
  unfold generateSlots.
  destruct (forEachSession fuel (sessions day) []) as [out|] eqn:E;
    [| discriminate].
  by rewrite (forEachSession_mono _ _ _ _ _ Hle E).
Qed.

Lemma getAvailableSlots_same_members fuel template dayIndex booked1 booked2 :
  (forall t, In t (map Appointment.startTime booked1)
             <-> In t (map Appointment.startTime booked2)) ->
  getAvailableSlots fuel template dayIndex (Ok booked1)
  = getAvailableSlots fuel template dayIndex (Ok booked2).
Proof.
  intros H. unfold getAvailableSlots.
  destruct (resolveDaySchedule template dayIndex) as [day|]; [| done].
  destruct (generateSlots fuel day) as [G|]; [| done].
  by rewrite (annotateAvailability_same_members G _ _ H).
Qed.

(** C8: two requests for the same date, answered on hosts that give the date
    the same weekday, for doctors with the same schedule template and with
    the same booked start times (as a set), get the same answer: the one
    that ends with some bound on the loop is the answer of the other with
    any bound at least as large, and two answers never differ.  Nothing
    else of the doctor, of the appointments or of the host is read. *)
Theorem getDoctorSlotsForDate_deterministic (fuel1 fuel2 : nat) (w1 w2 : World)
    (req1 req2 : SlotsRequest) (date : string) (doctor1 doctor2 : Doctor)
    (booked1 booked2 : list Appointment.doc) :
  query_date req1 = Some date ->
  query_date req2 = Some date ->
  getDay w1 date = getDay w2 date ->
  Doctor_findById w1 (params_id req1) = Ok (Some doctor1) ->
  Doctor_findById w2 (params_id req2) = Ok (Some doctor2) ->
  scheduleTemplate doctor1 = scheduleTemplate doctor2 ->
  Appointment_find w1 (params_id req1) date = Ok booked1 ->
  Appointment_find w2 (params_id req2) date = Ok booked2 ->
  (forall t, In t (map Appointment.startTime booked1)
             <-> In t (map Appointment.startTime booked2)) ->
  (forall r, (fuel1 <= fuel2)%nat ->
     getDoctorSlotsForDate fuel1 w1 req1 = Some r ->
     getDoctorSlotsForDate fuel2 w2 req2 = Some r)
  /\ (forall r1 r2,
        getDoctorSlotsForDate fuel1 w1 req1 = Some r1 ->
        getDoctorSlotsForDate fuel2 w2 req2 = Some r2 -> r1 = r2).
Proof.
  intros Hq1 Hq2 Hday Hd1 Hd2 Htpl Hb1 Hb2 Hmem.
  assert (Hsame : forall fuel,
            getDoctorSlotsForDate fuel w1 req1 = getDoctorSlotsForDate fuel w2 req2).
  { intros fuel. unfold getDoctorSlotsForDate. rewrite Hq1, Hq2.
    destruct (negb (truthy (Some date))); [reflexivity |].
    simpl. rewrite Hd1, Hd2, Hb1, Hb2, Htpl, Hday.
    by apply getAvailableSlots_same_members. }
  assert (Hmono : forall fuel fuel' r, (fuel <= fuel')%nat ->
            getDoctorSlotsForDate fuel w2 req2 = Some r ->
            getDoctorSlotsForDate fuel' w2 req2 = Some r).
  { intros fuel fuel' r Hle. unfold getDoctorSlotsForDate.
    destruct (negb (truthy (query_date req2))); [done |].
    destruct (Doctor_findById w2 (params_id req2)) as [[doc|]|]; try done.
    by apply getAvailableSlots_mono. }
  split.
  - intros r Hle H. rewrite Hsame in H. by apply (Hmono fuel1).
  - intros r1 r2 H1 H2. rewrite Hsame in H1.
    apply (Hmono _ (Nat.max fuel1 fuel2)) in H1; [| lia].
    apply (Hmono _ (Nat.max fuel1 fuel2)) in H2; [| lia].
    congruence.
Qed.

(** C8 at two requests that differ in the doctor's identifier, in the order
    of the booked appointments and in the bound on the loop. *)
Lemma getDoctorSlotsForDate_deterministic_witness :
  getDoctorSlotsForDate 9
    (mondayWorld "b" [appt "b" "15:00"; appt "b" "09:30"; appt "b" "15:00"])
    {| params_id := "b"; query_date := Some "2025-01-06" |}
  = Some (slotsReply
            [ slotAt "09:00" available; slotAt "09:30" booked;
              slotAt "10:00" available; slotAt "10:30" available;
              slotAt "11:00" available; slotAt "11:30" available;
              slotAt "14:00" available; slotAt "14:30" available;
              slotAt "15:00" booked; slotAt "15:30" available ]).
Proof.
  refine (proj1 (getDoctorSlotsForDate_deterministic 6 9
                   (mondayWorld "a" [appt "a" "09:30"; appt "a" "15:00"])
                   (mondayWorld "b" [appt "b" "15:00"; appt "b" "09:30"; appt "b" "15:00"])
                   {| params_id := "a"; query_date := Some "2025-01-06" |}
                   {| params_id := "b"; query_date := Some "2025-01-06" |}
                   "2025-01-06" (drTwoSessions "a") (drTwoSessions "b")
                   [appt "a" "09:30"; appt "a" "15:00"]
                   [appt "b" "15:00"; appt "b" "09:30"; appt "b" "15:00"]
                   eq_refl eq_refl eq_refl eq_refl eq_refl eq_refl eq_refl eq_refl _)
            _ _ _).
  - intros t. simpl. tauto.
  - lia.
  - vm_compute. reflexivity.
Defined.

(** ** The search filters *)

Lemma truthy_Some p : truthy p = true <-> exists s, p = Some s /\ s <> "".
Proof.
  destruct p as [s|]; simpl.
  - destruct (String.eqb_spec s "") as [->|Hne]; simpl.
    + split; [discriminate | intros (s & [= <-] & H); congruence].
    + split; eauto.
  - split; [discriminate | intros (s & H & _); discriminate].
Qed.

Lemma isString_eq p lit : isString p lit = true <-> p = Some lit.
Proof.
  destruct p as [s|]; simpl; [| split; discriminate].
  rewrite String.eqb_eq. split; congruence.
Qed.

Section lookups.
Context (m : gmap string FilterValue) (k : string).

Lemma lookup_insert_bool k1 v1 :
  <[k1:=v1]> m !! k = if bool_decide (k1 = k) then Some v1 else m !! k.
Proof. rewrite lookup_insert. by case_decide; case_bool_decide. Qed.

Lemma lookup_insert_if (b : bool) k1 v1 :
  (if b then <[k1:=v1]> m else m) !! k
  = if b && bool_decide (k1 = k) then Some v1 else m !! k.
Proof.
  destruct b; simpl; [| reflexivity].
  rewrite lookup_insert. by case_decide; case_bool_decide.
Qed.

Lemma lookup_insert_elif (a b : bool) k1 v1 k2 v2 :
  (if a then <[k1:=v1]> m else if b then <[k2:=v2]> m else m) !! k
  = if a && bool_decide (k1 = k) then Some v1
    else if negb a && b && bool_decide (k2 = k) then Some v2
    else m !! k.
Proof.
  destruct a, b; simpl; rewrite ?lookup_insert; try reflexivity;
    by case_decide; case_bool_decide.
Qed.
End lookups.

Lemma searchFilters_lookup q k :
  searchFilters q !! k
  = if hasLocation q && bool_decide ("clinic.location" = k)
    then Some (FNear (default "" (lng q)) (default "" (lat q))
                     (default "" (radiusKm q)))
    else if isString (supportsEmergency q) "true"
            && bool_decide ("supportsEmergency" = k)
    then Some (FBool true)
    else if isString (consultationType q) "telemedicine"
            && bool_decide ("consultationModes.telemedicine" = k)
    then Some (FBool true)
    else if negb (isString (consultationType q) "telemedicine")
            && isString (consultationType q) "inClinic"
            && bool_decide ("consultationModes.inClinic" = k)
    then Some (FBool true)
    else if truthy (city q) && bool_decide ("clinic.city" = k)
    then Some (FStr (default "" (city q)))
    else if truthy (specialty q) && bool_decide ("specialties" = k)
    then Some (FStr (default "" (specialty q)))
    else if bool_decide ("isAcceptingNewPatients" = k) then Some (FBool true)
    else if bool_decide ("status" = k) then Some (FStr "active")
    else None.
Proof.
  unfold searchFilters, hasLocation.
  rewrite lookup_insert_if, lookup_insert_if, lookup_insert_elif,
    lookup_insert_if, lookup_insert_if.
  by rewrite !lookup_insert_bool, lookup_empty.
Qed.

Ltac decide_keys :=
  repeat (case_bool_decide; try congruence;
          rewrite ?andb_false_r, ?andb_true_r).

(** C9: whatever the query, the filter object has status "active" and
    isAcceptingNewPatients true; the specialty, city and location filters
    are there only when their parameters are given (and then carry them);
    the emergency filter is there exactly when supportsEmergency is the
    string "true", the telemedicine filter exactly when consultationType is
    "telemedicine", the in-clinic filter exactly when it is "inClinic"; the
    object has no other key; and the repository is asked with this object
    and nothing else of the query. *)
Theorem searchFilters_fixed_and_optional (q : SearchQuery) :
  searchFilters q !! "status" = Some (FStr "active")
  /\ searchFilters q !! "isAcceptingNewPatients" = Some (FBool true)
  /\ (forall v, searchFilters q !! "specialties" = Some v ->
        exists s, specialty q = Some s /\ v = FStr s)
  /\ (forall v, searchFilters q !! "clinic.city" = Some v ->
        exists s, city q = Some s /\ v = FStr s)
  /\ (forall v, searchFilters q !! "clinic.location" = Some v ->
        exists la ln ra, lat q = Some la /\ lng q = Some ln
                         /\ radiusKm q = Some ra /\ v = FNear ln la ra)
  /\ (is_Some (searchFilters q !! "supportsEmergency")
      <-> supportsEmergency q = Some "true")
  /\ (is_Some (searchFilters q !! "consultationModes.telemedicine")
      <-> consultationType q = Some "telemedicine")
  /\ (is_Some (searchFilters q !! "consultationModes.inClinic")
      <-> consultationType q = Some "inClinic")
  /\ (forall k, is_Some (searchFilters q !! k) -> In k filterKeys)
  /\ (forall w1 w2,
        Doctor_find w1 (searchFilters q) = Doctor_find w2 (searchFilters q) ->
        (forall d, getDay w1 d = getDay w2 d) ->
        searchDoctors w1 q = searchDoctors w2 q).
Proof.
  repeat match goal with |- _ /\ _ => split end.
  - rewrite searchFilters_lookup. by decide_keys.
  - rewrite searchFilters_lookup. by decide_keys.
  - intros v. rewrite searchFilters_lookup. decide_keys.
    destruct (truthy (specialty q)) eqn:E; [| discriminate].
    apply truthy_Some in E as (s & -> & _). intros [= <-]. eauto.
  - intros v. rewrite searchFilters_lookup. decide_keys.
    destruct (truthy (city q)) eqn:E; [| discriminate].
    apply truthy_Some in E as (s & -> & _). intros [= <-]. eauto.
  - intros v. rewrite searchFilters_lookup. decide_keys.
    unfold hasLocation.
    destruct (truthy (lat q)) eqn:E1; [| discriminate].
    destruct (truthy (lng q)) eqn:E2; [| discriminate].
    destruct (truthy (radiusKm q)) eqn:E3; [| discriminate].
    apply truthy_Some in E1 as (la & -> & _).
    apply truthy_Some in E2 as (ln & -> & _).
    apply truthy_Some in E3 as (ra & -> & _).
    intros [= <-]. eauto 10.
  - rewrite searchFilters_lookup. decide_keys.
    rewrite <- isString_eq.
    destruct (isString (supportsEmergency q) "true"); simpl.
    + split; [done | by eexists].
    + split; [intros Hs; by apply is_Some_None in Hs | discriminate].
  - rewrite searchFilters_lookup. decide_keys.
    rewrite <- isString_eq.
    destruct (isString (consultationType q) "telemedicine"); simpl.
    + split; [done | by eexists].
    + split; [intros Hs; by apply is_Some_None in Hs | discriminate].
  - rewrite searchFilters_lookup. decide_keys.
    rewrite <- (isString_eq _ "inClinic").
    destruct (isString (consultationType q) "telemedicine") eqn:E; simpl.
    + apply isString_eq in E. rewrite E. simpl.
      split; [intros Hs; by apply is_Some_None in Hs | discriminate].
    + destruct (isString (consultationType q) "inClinic"); simpl.
      * split; [done | by eexists].
      * split; [intros Hs; by apply is_Some_None in Hs | discriminate].
  - intros k. rewrite searchFilters_lookup. unfold filterKeys.
    repeat (case_bool_decide; [subst k; intros _; simpl; tauto |]).
    rewrite !andb_false_r. intros Hs. by apply is_Some_None in Hs.
  - intros w1 w2 Hfind Hday. unfold searchDoctors.
    by rewrite Hfind, Hday.
Qed.

(** ** Slots of one session are in increasing order *)

Lemma sessionMinutes_increasing s d (i j : nat) x y :
  slotDurationMinutes s = Num d -> 0 < d ->
  sessionMinutes s !! i = Some x -> sessionMinutes s !! j = Some y ->
  (i < j)%nat -> x < y.
Proof.
  intros Hs Hd. unfold sessionMinutes. rewrite Hs.
  destruct (timeToMinutes (startTime s)) as [|sm]; [done |].
  destruct (timeToMinutes (endTime s)) as [|em]; [done |].
  by apply slotMinutes_increasing.
Qed.

Lemma sessionMinutes_NoDup s d :
  slotDurationMinutes s = Num d -> 0 < d -> NoDup (sessionMinutes s).
Proof.
  intros Hs Hd. unfold sessionMinutes. rewrite Hs.
  destruct (timeToMinutes (startTime s)) as [|sm]; [constructor |].
  destruct (timeToMinutes (endTime s)) as [|em]; [constructor |].
  by apply slotMinutes_NoDup.
Qed.



(** * Further properties *)

(** ** When the generation ends *)

Lemma sessionBody_stuck s fuel acc : stuck s = true -> sessionBody fuel s acc = None.
Proof.
  unfold stuck, sessionBody.
  destruct (timeToMinutes (startTime s)) as [|sm]; [discriminate |].
  destruct (timeToMinutes (endTime s)) as [|em]; [discriminate |].
  destruct (slotDurationMinutes s) as [|d]; [discriminate |].
  intros [Hlt Hd]%andb_prop.
  apply whileLoop_nonpositive; lia.
Qed.

Lemma sessionBody_not_stuck s fuel acc :
  stuck s = false -> (S (length (sessionMinutes s)) <= fuel)%nat ->
  exists out, sessionBody fuel s acc = Some (acc ++ out).
Proof.
  unfold stuck, sessionBody, sessionMinutes.
  destruct (timeToMinutes (startTime s)) as [|sm];
    [intros _ _; exists []; rewrite app_nil_r; by apply whileLoop_stop |].
  destruct (timeToMinutes (endTime s)) as [|em];
    [intros _ _; exists []; rewrite app_nil_r; by apply whileLoop_stop |].
  destruct (Z.ltb_spec sm em) as [Hlt|Hge]; simpl.
  - destruct (slotDurationMinutes s) as [|d].
    + intros _ Hfuel. destruct fuel as [|fuel]; [lia |].
      eexists. apply whileLoop_NaN. simpl. by apply Z.ltb_lt.
    + destruct (Z.leb_spec d 0) as [|Hd]; [discriminate |].
      intros _ Hfuel. eexists. apply whileLoop_positive; [lia |].
      rewrite slotMinutes_length in Hfuel. lia.
  - intros _ _. exists []. rewrite app_nil_r. apply whileLoop_stop.
    simpl. by apply Z.ltb_ge.
Qed.

Lemma forEachSession_stuck fuel ss : forall acc,
  Exists (fun s => stuck s = true) ss -> forEachSession fuel ss acc = None.
Proof.
  induction ss as [|s ss IH]; intros acc H; [by apply Exists_nil in H |].
  simpl. apply Exists_cons in H as [H|H].
  - by rewrite sessionBody_stuck.
  - destruct (sessionBody fuel s acc); [by apply IH | reflexivity].
Qed.

Lemma forEachSession_not_stuck ss : forall fuel acc,
  Forall (fun s => stuck s = false) ss -> (iterationBound ss <= fuel)%nat ->
  exists out, forEachSession fuel ss acc = Some out.
Proof.
  induction ss as [|s ss IH]; intros fuel acc H Hfuel; simpl; [eauto |].
  apply Forall_cons in H as [Hs Hss]. simpl in Hfuel.
  destruct (sessionBody_not_stuck s fuel acc Hs) as [out ->]; [lia |].
  apply IH; [assumption | lia].
Qed.



(** ** Edge cases of one session *)

(** X3: a session whose times are read exactly (hour and minute parts up to
    10^12) as a start below the end and whose duration is absent (or [NaN])
    gives exactly one slot, the label of its start, after one iteration of
    the loop. *)
Theorem session_without_duration_gives_one_slot (day : DayTemplate) (s : Session)
    (sm em : Z) :
  sessions day = [s] ->
  exactTime (startTime s) = true ->
  exactTime (endTime s) = true ->
  timeToMinutes (startTime s) = Num sm ->
  timeToMinutes (endTime s) = Num em ->
  sm < em ->
  slotDurationMinutes s = NaN ->
  generateSlots O day = None
  /\ (forall fuel, (1 <= fuel)%nat ->
        generateSlots fuel day = Some [formatSlot (Num sm)])
  /\ (forall fuel acc,
        sessionBody (S fuel) s acc = Some (acc ++ [formatSlot (Num sm)])).
Proof.
  intros Hday _ _ Hs He Hlt Hd.
  assert (Hcond : jslt (Num sm) (Num em) = true) by (simpl; by apply Z.ltb_lt).
  assert (Hbody : forall fuel acc,
            sessionBody (S fuel) s acc = Some (acc ++ [formatSlot (Num sm)])).
  { intros fuel acc. unfold sessionBody. rewrite Hs, He, Hd.
    by apply whileLoop_NaN. }
  split; [| split; [| exact Hbody]].
  - rewrite (generateSlots_single _ _ _ Hday).
    unfold sessionSlots, sessionBody. rewrite Hs, He. cbn [whileLoop].
    by rewrite Hcond.
  - intros [|fuel] Hfuel; [lia |].
    rewrite (generateSlots_single _ _ _ Hday). apply (Hbody fuel []).
Qed.

(** X3 at the session ("09:00", "10:00") without duration. *)
Lemma session_without_duration_witness :
  generateSlots 4 absentDurationDay = Some [formatSlot (Num 540)].
Proof.
  refine (proj1 (proj2 (session_without_duration_gives_one_slot absentDurationDay
            (mkSession "09:00" "10:00" NaN) 540 600
            eq_refl _ _ eq_refl eq_refl eq_refl eq_refl)) 4%nat _).
  - vm_compute. reflexivity.
  - vm_compute. reflexivity.
  - lia.
Defined.

(** X4: a session one of whose times has no colon gives no slot and uses
    no iteration of the loop, whatever its duration (a duration of 0
    included). *)
Theorem time_without_colon_gives_no_slot (s : Session) :
  noColon (startTime s) = true \/ noColon (endTime s) = true ->
  (forall fuel acc, sessionBody fuel s acc = Some acc)
  /\ (forall fuel day, sessions day = [s] -> generateSlots fuel day = Some []).
Proof.
  intros H.
  assert (Hbody : forall fuel acc, sessionBody fuel s acc = Some acc).
  { intros fuel acc. unfold sessionBody. apply whileLoop_stop.
    destruct H as [H|H]; rewrite (timeToMinutes_noColon _ H);
      [reflexivity | apply jslt_NaN_r]. }
  split; [exact Hbody |].
  intros fuel day Hday. rewrite (generateSlots_single _ _ _ Hday).
  apply Hbody.
Qed.

(** X4 at the session ("0900", "10:00", 0). *)
Lemma time_without_colon_witness :
  generateSlots 0 (workingDay 1 [mkSession "0900" "10:00" (Num 0)]) = Some [].
Proof.
  exact (proj2 (time_without_colon_gives_no_slot
                  (mkSession "0900" "10:00" (Num 0)) (or_introl eq_refl))
               O (workingDay 1 [mkSession "0900" "10:00" (Num 0)]) eq_refl).
Defined.

(** ** Labels and time strings *)

(** X7: for [h] in 0..99 and [m] in 0..59 the string of the two digits of
    [h], a colon and the two digits of [m] is read as [60 * h + m], and
    [60 * h + m] is labelled with that string: reading and labelling are
    inverse to each other on clock strings. *)
Theorem clock_string_round_trip (h m : Z) :
  0 <= h < 100 -> 0 <= m < 60 ->
  timeToMinutes (twoDigits h +:+ ":" +:+ twoDigits m) = Num (h * 60 + m)
  /\ formatSlot (Num (h * 60 + m)) = twoDigits h +:+ ":" +:+ twoDigits m
  /\ timeToMinutes (formatSlot (Num (h * 60 + m))) = Num (h * 60 + m).
Proof.
  intros Hh Hm.
  assert (Hfmt : formatSlot (Num (h * 60 + m)) = twoDigits h +:+ ":" +:+ twoDigits m).
  { rewrite formatSlot_clock by lia. unfold clock.
    replace ((h * 60 + m) / 60) with h
      by (apply (Z.div_unique _ _ h m); lia).
    replace ((h * 60 + m) mod 60) with m
      by (apply (Z.mod_unique _ _ h m); lia).
    reflexivity. }
  assert (Hback : timeToMinutes (formatSlot (Num (h * 60 + m))) = Num (h * 60 + m))
    by (apply timeToMinutes_formatSlot_nonneg; lia).
  split; [by rewrite <- Hfmt | by split].
Qed.

(** X7 at 09:05. *)
Lemma clock_string_round_trip_witness :
  timeToMinutes "09:05" = Num 545 /\ formatSlot (Num 545) = "09:05".
Proof.
  pose proof (clock_string_round_trip 9 5 ltac:(lia) ltac:(lia)) as (H1 & H2 & _).
  split; [exact H1 | exact H2].
Defined.

(** ** Slots and time windows *)

Lemma sessionMinutes_window s d x :
  slotDurationMinutes s = Num d -> 0 < d -> In x (sessionMinutes s) ->
  exists sm em,
    timeToMinutes (startTime s) = Num sm
    /\ timeToMinutes (endTime s) = Num em /\ sm <= x < em.
Proof.
  intros Hd Hpos. unfold sessionMinutes. rewrite Hd.
  destruct (timeToMinutes (startTime s)) as [|sm]; [intros [] |].
  destruct (timeToMinutes (endTime s)) as [|em]; [intros [] |].
  intros Hx. apply list_elem_of_In, list_elem_of_lookup in Hx as [k Hk].
  apply slotMinutes_lookup in Hk as [-> Hk]; [| assumption].
  exists sm, em. repeat split; [nia | assumption].
Qed.

Lemma sessionSlots_inWindow fuel s out :
  sessionSlots fuel s = Some out -> Forall (inWindow s) out.
Proof.
  unfold sessionSlots, sessionBody.
  destruct (timeToMinutes (startTime s)) as [|sm] eqn:Hs;
    [rewrite whileLoop_stop by done; by intros [= <-] |].
  destruct (timeToMinutes (endTime s)) as [|em] eqn:He;
    [rewrite whileLoop_stop by done; by intros [= <-] |].
  destruct (Z.lt_ge_cases sm em) as [Hlt|Hge];
    [| rewrite whileLoop_stop by (simpl; apply Z.ltb_ge; lia); by intros [= <-]].
  destruct (slotDurationMinutes s) as [|d] eqn:Hd.
  - destruct fuel as [|fuel].
    + simpl. by rewrite (proj2 (Z.ltb_lt sm em) Hlt).
    + rewrite whileLoop_NaN by (simpl; by apply Z.ltb_lt). intros [= <-].
      repeat constructor. exists sm, em, sm. repeat split; auto; lia.
  - destruct (Z.le_gt_cases d 0) as [Hle|Hpos];
      [by rewrite whileLoop_nonpositive |].
    intros Hout.
    apply (whileLoop_mono _ (Nat.max fuel (slotCount sm em d))) in Hout; [| lia].
    rewrite whileLoop_positive in Hout by lia. injection Hout as <-.
    apply Forall_forall. intros label Hl.
    apply list_elem_of_In, in_map_iff in Hl as (x & <- & Hx).
    apply list_elem_of_In, list_elem_of_lookup in Hx as [k Hk].
    apply slotMinutes_lookup in Hk as [-> Hk]; [| lia].
    exists sm, em, (sm + Z.of_nat k * d). repeat split; auto; nia.
Qed.

Lemma forEachSession_inWindow fuel ss : forall acc out,
  forEachSession fuel ss acc = Some out ->
  exists new, out = acc ++ new
              /\ Forall (fun label => exists s, In s ss /\ inWindow s label) new.
Proof.
  induction ss as [|s ss IH]; intros acc out; simpl.
  - intros [= <-]. exists []. by rewrite app_nil_r.
  - unfold sessionBody. rewrite whileLoop_acc.
    destruct (whileLoop fuel _ _ _ []) as [o|] eqn:E; [| discriminate].
    simpl. intros H. apply IH in H as (new & -> & Hnew).
    exists (o ++ new). split; [by rewrite app_assoc |].
    apply Forall_app. split.
    + eapply Forall_impl; [exact (sessionSlots_inWindow fuel s o E) |].
      intros label Hl. exists s. auto.
    + eapply Forall_impl; [exact Hnew |].
      intros label (t & Ht & Hl). exists t. auto.
Qed.

(** X5: for a day all of whose sessions are covered (times read exactly or
    without colon, duration absent or an integer up to 2^52 in absolute
    value), every slot that is generated is the label of an integer minute
    [x] with [start <= x < end] for one of the sessions of the day; the label
    "NaN:NaN" is never generated. *)
Theorem generated_slots_lie_in_a_window (fuel : nat) (day : DayTemplate)
    (out : list string) :
  Forall (fun s => coveredSession s = true) (sessions day) ->
  generateSlots fuel day = Some out ->
  Forall (fun label => exists s, In s (sessions day) /\ inWindow s label) out
  /\ ~ In "NaN:NaN" out.
Proof.
  intros _ H. apply forEachSession_inWindow in H as (new & -> & Hnew).
  split; [exact Hnew |].
  intros Hin. rewrite Forall_forall in Hnew.
  apply list_elem_of_In, Hnew in Hin as (s & _ & sm & em & x & _ & _ & _ & Hx).
  apply (f_equal timeToMinutes) in Hx.
  rewrite timeToMinutes_formatSlot in Hx. discriminate.
Qed.

(** X5 at the day 09:00-12:00 and 14:00-16:00 by 30 minutes. *)
Lemma generated_slots_witness :
  Forall (fun label => exists s, In s (sessions twoSessionDay) /\ inWindow s label)
    ["09:00"; "09:30"; "10:00"; "10:30"; "11:00"; "11:30";
     "14:00"; "14:30"; "15:00"; "15:30"].
Proof.
  refine (proj1 (generated_slots_lie_in_a_window 6 twoSessionDay _ _ _)).
  - repeat (apply List.Forall_cons || apply List.Forall_nil);
      vm_compute; reflexivity.
  - vm_compute. reflexivity.
Defined.



(** ** A day of sessions in order *)

Lemma increasing_StronglySorted (l : list Z) :
  (forall (i j : nat) x y, l !! i = Some x -> l !! j = Some y -> (i < j)%nat -> x < y) ->
  StronglySorted Z.lt l.
Proof.
  induction l as [|a l IH]; intros H; constructor.
  - apply IH. intros i j x y Hi Hj Hij. apply (H (S i) (S j)); auto; lia.
  - apply List.Forall_forall. intros y Hy.
    apply list_elem_of_In, list_elem_of_lookup in Hy as [j Hj].
    apply (H O (S j)); auto; lia.
Qed.

Lemma StronglySorted_app_lt (l1 l2 : list Z) :
  StronglySorted Z.lt l1 -> StronglySorted Z.lt l2 ->
  (forall x y, In x l1 -> In y l2 -> x < y) ->
  StronglySorted Z.lt (l1 ++ l2).
Proof.
  induction l1 as [|a l1 IH]; intros H1 H2 H; simpl; [assumption |].
  apply StronglySorted_inv in H1 as [H1 Ha]. constructor.
  - apply IH; auto. intros x y Hx Hy. apply H; simpl; auto.
  - apply List.Forall_forall. intros y Hy. apply in_app_or in Hy as [Hy|Hy].
    + rewrite List.Forall_forall in Ha. by apply Ha.
    + apply H; simpl; auto.
Qed.

Lemma StronglySorted_lt_NoDup (l : list Z) : StronglySorted Z.lt l -> NoDup l.
Proof.
  induction 1 as [|a l Hl IH Ha]; constructor; [| assumption].
  intros Hin%list_elem_of_In. rewrite List.Forall_forall in Ha.
  specialize (Ha a Hin). lia.
Qed.

Lemma dayMinutes_sorted ss :
  Forall positiveDuration ss -> StronglySorted endsBefore ss ->
  StronglySorted Z.lt (dayMinutes ss).
Proof.
  induction ss as [|s ss IH]; intros Hpos Hord; [constructor |].
  apply Forall_cons in Hpos as [(d & Hd & Hdpos) Hpos].
  apply StronglySorted_inv in Hord as [Hord Hs].
  unfold dayMinutes. simpl. apply StronglySorted_app_lt.
  - apply increasing_StronglySorted. intros i j x y.
    by apply (sessionMinutes_increasing s d).
  - by apply IH.
  - intros x y Hx Hy.
    apply (sessionMinutes_window s d) in Hx as (sm & em & _ & He & Hx); auto.
    apply in_concat in Hy as (l & Hl & Hy).
    apply in_map_iff in Hl as (t & <- & Ht).
    rewrite List.Forall_forall in Hs. destruct (Hs t Ht) as (em' & sm' & He' & Hs' & Hle).
    rewrite Forall_forall in Hpos.
    destruct (Hpos t (proj2 (list_elem_of_In _ _) Ht)) as (d' & Hd' & Hd'pos).
    apply (sessionMinutes_window t d') in Hy as (sm'' & em'' & Hs'' & _ & Hy); auto.
    assert (em' = em) by congruence. assert (sm'' = sm') by congruence. lia.
Qed.

Lemma forEachSession_positive ss : forall fuel acc,
  Forall positiveDuration ss -> (iterationBound ss <= fuel)%nat ->
  forEachSession fuel ss acc
  = Some (acc ++ map (fun x => formatSlot (Num x)) (dayMinutes ss)).
Proof.
  induction ss as [|s ss IH]; intros fuel acc Hpos Hfuel; simpl.
  - by rewrite app_nil_r.
  - apply Forall_cons in Hpos as [(d & Hd & Hdpos) Hpos]. simpl in Hfuel.
    unfold sessionBody. rewrite whileLoop_acc.
    pose proof (sessionSlots_positive s d fuel Hd Hdpos) as Hs.
    unfold sessionSlots, sessionBody in Hs. rewrite Hs by lia. simpl.
    rewrite IH by (auto; lia).
    unfold dayMinutes. simpl. by rewrite List.map_app, app_assoc.
Qed.



(** ** Dates the host cannot read *)

Lemma resolveDaySchedule_NaN template : resolveDaySchedule template NaN = None.
Proof.
  destruct template as [days|]; [| reflexivity]. simpl.
  apply find_None, Forall_forall. intros d _. unfold worksOn.
  by destruct (dayOfWeek d).
Qed.

Lemma filter_nothing {A} (p : A -> bool) l :
  (forall x, p x = false) -> List.filter p l = [].
Proof. intros H. induction l as [|x l IH]; simpl; [done | by rewrite H]. Qed.

(** X9: a date that is given but that the host cannot read (its weekday
    is [NaN]) is answered, for every doctor that exists and whatever the
    template, by "not available" with status 200; a search for that date
    returns no doctor. *)
Theorem invalid_date_is_not_available (w : World) (d : string) :
  d <> "" ->
  getDay w d = NaN ->
  (forall fuel id doctor,
     Doctor_findById w id = Ok (Some doctor) ->
     getDoctorSlotsForDate fuel w (slotsRequest id d) = Some notAvailable)
  /\ (forall q found,
        date q = Some d ->
        Doctor_find w (searchFilters q) = Ok found ->
        doctors (searchDoctors w q) = Some [] /\ total (searchDoctors w q) = Some O).
Proof.
  intros Hd Hday.
  assert (Htruthy : truthy (Some d) = true).
  { simpl. by destruct (String.eqb_spec d ""). }
  split.
  - intros fuel id doctor Hdoc. unfold getDoctorSlotsForDate, slotsRequest.
    cbn [query_date params_id]. rewrite Htruthy. cbn [negb].
    change (default "" (Some d)) with d.
    rewrite Hdoc, Hday. unfold getAvailableSlots.
    by rewrite resolveDaySchedule_NaN.
  - intros q found Hq Hfound. unfold searchDoctors.
    rewrite Hfound, Hq, Htruthy.
    change (default "" (Some d)) with d. rewrite Hday.
    rewrite filter_nothing; [done |].
    intros doc. rewrite resolveDaySchedule_NaN.
    apply bool_decide_eq_false. by intros [? ?].
Qed.

(** X9 at a host that reads no date. *)
Lemma invalid_date_witness :
  getDoctorSlotsForDate 0 noDateWorld (slotsRequest "d1" "someday")
  = Some notAvailable.
Proof.
  refine (proj1 (invalid_date_is_not_available noDateWorld "someday" _ eq_refl)
            O "d1" drMonday eq_refl).
  discriminate.
Defined.

(** ** The answers of the slots handler *)

Ltac answer_facts :=
  cbn; repeat match goal with |- _ /\ _ => split end;
  [ split; done
  | simpl; tauto
  | first [ done | intros ? [= <-]; auto ]
  | first [ by intros ? | intros _; repeat split; eauto ]
  | reflexivity
  | reflexivity ].

(** X10: every answer of the slots handler has success exactly when its
    status is 200, a status among 200, 400, 404 and 500, a slot list only
    with status 200 (and then [totalSlots] is its length, or the answer is
    "not available"), a message with any other status, and neither [total]
    nor [doctors]. *)
Theorem slots_answer_invariants (fuel : nat) (w : World) (req : SlotsRequest)
    (r : Response) :
  getDoctorSlotsForDate fuel w req = Some r ->
  (success r = true <-> statusCode r = 200)
  /\ In (statusCode r) [200; 400; 404; 500]
  /\ (forall l, slots r = Some l ->
        statusCode r = 200
        /\ (totalSlots r = Some (length l) \/ (l = [] /\ r = notAvailable)))
  /\ (statusCode r <> 200 ->
      slots r = None /\ totalSlots r = None /\ is_Some (message r))
  /\ total r = None /\ doctors r = None.
Proof.
  unfold getDoctorSlotsForDate, getAvailableSlots.
  destruct (negb (truthy (query_date req))); [intros [= <-]; answer_facts |].
  destruct (Doctor_findById w (params_id req)) as [[doctor|]|];
    [| intros [= <-]; answer_facts ..].
  destruct (resolveDaySchedule _ _) as [day|]; [| intros [= <-]; answer_facts].
  destruct (generateSlots fuel day) as [G|]; [| discriminate].
  destruct (Appointment_find _ _ _) as [b|]; intros [= <-]; answer_facts.
Qed.

(** X10 at the answer "not available". *)
Lemma slots_answer_witness :
  success notAvailable = true <-> statusCode notAvailable = 200.
Proof.
  exact (proj1 (slots_answer_invariants 0 noDateWorld (slotsRequest "d1" "someday")
                  notAvailable eq_refl)).
Defined.

(** ** Bookings *)

Lemma annotateAvailability_more_bookings G B1 B2 :
  (forall t, In t B1 -> In t B2) ->
  Forall2 (fun s1 s2 => time s1 = time s2 /\ (status s1 = booked -> status s2 = booked))
    (annotateAvailability G B1) (annotateAvailability G B2).
Proof.
  intros H. induction G as [|t G IH]; simpl; constructor; [| exact IH].
  split; [reflexivity |]. simpl.
  destruct (includes B1 t) eqn:E1; [| discriminate].
  apply includes_In, H, includes_In in E1. by rewrite E1.
Qed.

(** X11: the booked appointments change statuses only: two answers for the
    same template and weekday have the same status code, the same
    [totalSlots] and the same slot times in the same order; when every booked
    time of the first is booked in the second, each slot booked in the first
    is booked in the second; with no appointment every slot is available. *)
Theorem bookings_only_change_statuses (fuel : nat)
    (template : option (list DayTemplate)) (dayIndex : jsnum)
    (booked1 booked2 : list Appointment.doc) (r1 r2 : Response) :
  getAvailableSlots fuel template dayIndex (Ok booked1) = Some r1 ->
  getAvailableSlots fuel template dayIndex (Ok booked2) = Some r2 ->
  statusCode r1 = statusCode r2
  /\ totalSlots r1 = totalSlots r2
  /\ map time <$> slots r1 = map time <$> slots r2
  /\ ((forall t, In t (map Appointment.startTime booked1)
                 -> In t (map Appointment.startTime booked2)) ->
      forall l1 l2, slots r1 = Some l1 -> slots r2 = Some l2 ->
        Forall2 (fun s1 s2 => time s1 = time s2
                              /\ (status s1 = booked -> status s2 = booked)) l1 l2)
  /\ (booked1 = [] ->
      forall l1, slots r1 = Some l1 -> Forall (fun s => status s = available) l1).
Proof.
  unfold getAvailableSlots.
  destruct (resolveDaySchedule template dayIndex) as [day|].
  - destruct (generateSlots fuel day) as [G|]; [| discriminate].
    intros [= <-] [= <-]. simpl.
    split; [reflexivity |].
    split; [unfold annotateAvailability; by rewrite !length_map |].
    split; [by rewrite !annotateAvailability_times |].
    split.
    + intros H l1 l2 [= <-] [= <-]. by apply annotateAvailability_more_bookings.
    + intros -> l1 [= <-]. simpl. unfold annotateAvailability.
      apply Forall_forall. intros s Hs.
      apply list_elem_of_In, in_map_iff in Hs as (t & <- & _). reflexivity.
  - intros [= <-] [= <-]. simpl. repeat split; try done.
    + intros _ l1 l2 [= <-] [= <-]. constructor.
    + intros _ l1 [= <-]. constructor.
Qed.

(** X11 at a Monday morning with no appointment and with 09:30 booked. *)
Lemma bookings_witness :
  map time <$> slots (slotsReply (annotateAvailability ["09:00"; "09:30"] []))
  = map time <$> slots (slotsReply (annotateAvailability ["09:00"; "09:30"] ["09:30"])).
Proof.
  refine (proj1 (proj2 (proj2 (bookings_only_change_statuses 2
            (Some [mondayMorning]) (Num 1) [] [appt "a" "09:30"] _ _ eq_refl eq_refl)))).
Defined.

(** X12: booked times that are not generated have no effect (the answer is
    that for the booked times that are generated, and all slots are available
    when none is); two slots with the same time have the same status, so one
    appointment books every slot of its time. *)
Theorem bookings_outside_the_schedule_are_ignored (G B : list string) :
  annotateAvailability G B = annotateAvailability G (List.filter (includes G) B)
  /\ (forall (i j : nat) si sj,
        annotateAvailability G B !! i = Some si ->
        annotateAvailability G B !! j = Some sj ->
        time si = time sj -> status si = status sj)
  /\ ((forall t, In t B -> ~ In t G) ->
      Forall (fun s => status s = available) (annotateAvailability G B)).
Proof.
  split; [| split].
  - unfold annotateAvailability. apply List.map_ext_in. intros t Ht.
    assert (E : includes B t = includes (List.filter (includes G) B) t).
    { apply eq_true_iff_eq. rewrite !includes_In, filter_In, includes_In. tauto. }
    by rewrite E.
  - unfold annotateAvailability. intros i j si sj.
    rewrite !list_lookup_fmap.
    destruct (G !! i) as [ti|]; [| discriminate].
    destruct (G !! j) as [tj|]; [| discriminate].
    simpl. intros [= <-] [= <-]. simpl. by intros ->.
  - intros H. unfold annotateAvailability. apply Forall_forall. intros s Hs.
    apply list_elem_of_In, in_map_iff in Hs as (t & <- & Ht). simpl.
    destruct (includes B t) eqn:E; [| reflexivity].
    apply includes_In in E. by destruct (H t E).
Qed.

(** ** Searching by date *)

Lemma filter_sublist {A} (p : A -> bool) l : sublist (List.filter p l) l.
Proof.
  induction l as [|x l IH]; simpl; [constructor |].
  destruct (p x); by constructor.
Qed.

Lemma truthy_date_Some d : d <> "" -> truthy (Some d) = true.
Proof. intros H. simpl. by destruct (String.eqb_spec d ""). Qed.

(** X13: when the repository answers, the search answers 200 with [total]
    the length of [doctors]; the doctors returned are a sublist of those
    found, all of them when no date (or an empty one) is given, and otherwise
    exactly those whose template has a working day for the weekday of the
    date. *)
Theorem searchDoctors_keeps_working_doctors (w : World) (q : SearchQuery)
    (found : list Doctor) :
  Doctor_find w (searchFilters q) = Ok found ->
  exists kept,
    searchDoctors w q
    = {| statusCode := 200; success := true; message := None;
         totalSlots := None; slots := None;
         total := Some (length kept); doctors := Some kept |}
    /\ sublist kept found
    /\ (truthy (date q) = false -> kept = found)
    /\ (forall d, date q = Some d -> d <> "" ->
          forall doc,
            In doc kept <->
            In doc found
            /\ exists day,
                 resolveDaySchedule (scheduleTemplate doc) (getDay w d) = Some day).
Proof.
  intros Hfound. unfold searchDoctors. rewrite Hfound.
  destruct (truthy (date q)) eqn:Et.
  - eexists. split; [reflexivity |]. split; [apply filter_sublist |].
    split; [discriminate |].
    intros d Hd _ doc. rewrite Hd. change (default "" (Some d)) with d.
    rewrite filter_In, bool_decide_eq_true. unfold is_Some. tauto.
  - exists found. split; [reflexivity |]. split; [reflexivity |].
    split; [reflexivity |].
    intros d Hd Hne. rewrite Hd, truthy_date_Some in Et by assumption.
    discriminate.
Qed.

(** X13 at a search for a Tuesday. *)
Lemma searchDoctors_witness :
  exists kept,
    searchDoctors tuesdayWorld
      {| specialty := None; city := None; consultationType := None;
         supportsEmergency := None; lat := None; lng := None; radiusKm := None;
         date := Some "2025-01-07" |}
    = {| statusCode := 200; success := true; message := None;
         totalSlots := None; slots := None;
         total := Some (length kept); doctors := Some kept |}.
Proof.
  destruct (searchDoctors_keeps_working_doctors tuesdayWorld
              {| specialty := None; city := None; consultationType := None;
                 supportsEmergency := None; lat := None; lng := None;
                 radiusKm := None; date := Some "2025-01-07" |}
              [drMonday] eq_refl) as (kept & H & _).
  exists kept. exact H.
Defined.

(** X14: for a doctor the repository finds, the search by date returns the
    doctor exactly when the slots handler, asked for that doctor and date on
    the same host, does not answer "not available". *)
Theorem searched_doctors_have_a_working_day (fuel : nat) (w : World)
    (q : SearchQuery) (d : string) (found kept : list Doctor) (doc : Doctor)
    (id : string) :
  date q = Some d ->
  d <> "" ->
  Doctor_find w (searchFilters q) = Ok found ->
  doctors (searchDoctors w q) = Some kept ->
  In doc found ->
  Doctor_findById w id = Ok (Some doc) ->
  (In doc kept <->
   getDoctorSlotsForDate fuel w (slotsRequest id d) <> Some notAvailable).
Proof.
  intros Hq Hd Hfound Hkept Hin Hdoc.
  assert (Hk : In doc kept <->
               exists day, resolveDaySchedule (scheduleTemplate doc) (getDay w d)
                           = Some day).
  { unfold searchDoctors in Hkept.
    rewrite Hfound, Hq, truthy_date_Some in Hkept by assumption.
    change (default "" (Some d)) with d in Hkept. simpl in Hkept.
    injection Hkept as <-.
    rewrite filter_In, bool_decide_eq_true. unfold is_Some. tauto. }
  rewrite Hk. unfold getDoctorSlotsForDate, slotsRequest.
  cbn [query_date params_id]. rewrite truthy_date_Some by assumption.
  cbn [negb]. change (default "" (Some d)) with d. rewrite Hdoc.
  destruct (resolveDaySchedule (scheduleTemplate doc) (getDay w d)) as [day|] eqn:E.
  - split; [| eauto]. intros _ H.
    destruct (getAvailableSlots_scheduled _ _ _ _ _ _ E H) as [Hr|[l Hr]];
      discriminate.
  - unfold getAvailableSlots. rewrite E.
    split; [intros [day Hday]; discriminate | intros H; by destruct H].
Qed.

(** X14 at a doctor who does not work on Tuesdays. *)
Lemma searched_doctors_witness :
  In drMonday [] <->
  getDoctorSlotsForDate 0 tuesdayWorld (slotsRequest "d1" "2025-01-07")
  <> Some notAvailable.
Proof.
  refine (searched_doctors_have_a_working_day 0 tuesdayWorld
            {| specialty := None; city := None; consultationType := None;
               supportsEmergency := None; lat := None; lng := None;
               radiusKm := None; date := Some "2025-01-07" |}
            "2025-01-07" [drMonday] [] drMonday "d1"
            eq_refl _ eq_refl eq_refl _ eq_refl).
  - discriminate.
  - simpl. auto.
Defined.

(** ** The doctor's profile and the doctor's slots *)

(** X15: without a date the slots handler answers 400 whether or not the
    doctor exists; with a date it answers 404 exactly when [getDoctorById]
    does, 500 when [getDoctorById] does, and otherwise computes the slots of
    the doctor [getDoctorById] returns.  [getDoctorById] succeeds exactly
    when it returns a doctor. *)
Theorem slots_need_a_date_before_a_doctor (fuel : nat) (w : World) (id : string) :
  (forall d, truthy d = false ->
     getDoctorSlotsForDate fuel w {| params_id := id; query_date := d |}
     = Some (reply 400 false (Some "Date is required as query parameter")))
  /\ (forall d, d <> "" ->
        (replyCode (getDoctorById w id) = 404
         <-> getDoctorSlotsForDate fuel w (slotsRequest id d)
             = Some (reply 404 false (Some "Doctor not found")))
        /\ (replyCode (getDoctorById w id) = 500 ->
            getDoctorSlotsForDate fuel w (slotsRequest id d) = Some serverError)
        /\ (forall doctor, replyDoctor (getDoctorById w id) = Some doctor ->
            getDoctorSlotsForDate fuel w (slotsRequest id d)
            = getAvailableSlots fuel (scheduleTemplate doctor) (getDay w d)
                (Appointment_find w id d)))
  /\ (replySuccess (getDoctorById w id) = true
      <-> is_Some (replyDoctor (getDoctorById w id))).
Proof.
  split; [| split].
  - intros d Hd. unfold getDoctorSlotsForDate. cbn [query_date]. by rewrite Hd.
  - intros d Hd. unfold getDoctorSlotsForDate, slotsRequest, getDoctorById.
    cbn [query_date params_id]. rewrite truthy_date_Some by assumption.
    cbn [negb]. change (default "" (Some d)) with d.
    destruct (Doctor_findById w id) as [[doctor|]|]; cbn.
    + split; [split; [discriminate |] | split; [discriminate |]].
      * intros H.
        unfold getAvailableSlots in H.
        destruct (resolveDaySchedule _ _) as [day|]; [| discriminate].
        destruct (generateSlots fuel day); [| discriminate].
        destruct (Appointment_find w id d); discriminate.
      * by intros doc [= <-].
    + split; [done | split; [discriminate | discriminate]].
    + split; [split; discriminate | split; [done | discriminate]].
  - unfold getDoctorById.
    destruct (Doctor_findById w id) as [[doctor|]|]; cbn; split; try done;
      try (by intros [? ?]); eauto.
Qed.

(** ** More on the search filters *)

Lemma truthy_false p : truthy p = false <-> p = None \/ p = Some "".
Proof.
  destruct p as [s|]; simpl; [| tauto].
  destruct (String.eqb_spec s "") as [->|Hne]; simpl.
  - tauto.
  - split; [discriminate | intros [H|[= H]]; [discriminate | contradiction]].
Qed.

(** X16: a specialty, city or location filter is in the filter object
    (with the parameter's value) whenever its parameters are given and not
    empty, and is not when a parameter is absent or the empty string. *)
Theorem optional_filters_follow_nonempty_parameters (q : SearchQuery) :
  (forall s, specialty q = Some s -> s <> "" ->
     searchFilters q !! "specialties" = Some (FStr s))
  /\ (specialty q = None \/ specialty q = Some "" ->
      searchFilters q !! "specialties" = None)
  /\ (forall s, city q = Some s -> s <> "" ->
        searchFilters q !! "clinic.city" = Some (FStr s))
  /\ (city q = None \/ city q = Some "" ->
      searchFilters q !! "clinic.city" = None)
  /\ (forall la ln ra,
        lat q = Some la -> lng q = Some ln -> radiusKm q = Some ra ->
        la <> "" -> ln <> "" -> ra <> "" ->
        searchFilters q !! "clinic.location" = Some (FNear ln la ra))
  /\ (truthy (lat q) = false \/ truthy (lng q) = false
      \/ truthy (radiusKm q) = false ->
      searchFilters q !! "clinic.location" = None).
Proof.
  repeat match goal with |- _ /\ _ => split end.
  - intros s Hs Hne. rewrite searchFilters_lookup. decide_keys.
    rewrite Hs. simpl. by destruct (String.eqb_spec s "").
  - intros H%truthy_false. rewrite searchFilters_lookup. decide_keys.
    by rewrite H.
  - intros s Hs Hne. rewrite searchFilters_lookup. decide_keys.
    rewrite Hs. simpl. by destruct (String.eqb_spec s "").
  - intros H%truthy_false. rewrite searchFilters_lookup. decide_keys.
    by rewrite H.
  - intros la ln ra Hla Hln Hra Hla' Hln' Hra'.
    rewrite searchFilters_lookup. decide_keys. unfold hasLocation.
    rewrite Hla, Hln, Hra. simpl.
    destruct (String.eqb_spec la ""); [done |].
    destruct (String.eqb_spec ln ""); [done |].
    by destruct (String.eqb_spec ra "").
  - intros H. rewrite searchFilters_lookup. decide_keys. unfold hasLocation.
    destruct H as [-> | [-> | ->]]; simpl; rewrite ?andb_false_r; reflexivity.
Qed.

Section sizes.
Context (m : gmap string FilterValue).

Lemma size_insert_bounds k v :
  (size m <= size (<[k:=v]> m) <= S (size m))%nat.
Proof. rewrite map_size_insert. destruct (m !! k); simpl; lia. Qed.

Lemma size_if_insert (b : bool) k v (lo hi : nat) :
  (lo <= size m <= hi)%nat ->
  (lo <= size (if b then <[k:=v]> m else m) <= S hi)%nat.
Proof.
  intros H. pose proof (size_insert_bounds k v). destruct b; lia.
Qed.

Lemma size_elif_insert (a b : bool) k1 v1 k2 v2 (lo hi : nat) :
  (lo <= size m <= hi)%nat ->
  (lo <= size (if a then <[k1:=v1]> m else if b then <[k2:=v2]> m else m)
   <= S hi)%nat.
Proof.
  intros H. pose proof (size_insert_bounds k1 v1).
  pose proof (size_insert_bounds k2 v2). destruct a, b; lia.
Qed.
End sizes.

(** X17: the filter object never has both consultation modes, has between
    2 and 7 keys, and every boolean in it is true. *)
Theorem filters_have_at_most_one_consultation_mode (q : SearchQuery) :
  ~ (is_Some (searchFilters q !! "consultationModes.telemedicine")
     /\ is_Some (searchFilters q !! "consultationModes.inClinic"))
  /\ (2 <= size (searchFilters q) <= 7)%nat
  /\ (forall k b, searchFilters q !! k = Some (FBool b) -> b = true).
Proof.
  split; [| split].
  - rewrite !searchFilters_lookup. decide_keys.
    destruct (isString (consultationType q) "telemedicine"); simpl;
      intros [[x Hx] [y Hy]]; discriminate.
  - unfold searchFilters. cbv zeta.
    apply size_if_insert, size_if_insert, size_elif_insert, size_if_insert,
      size_if_insert.
    rewrite map_size_insert_None, map_size_insert_None, map_size_empty;
      [lia | apply lookup_empty |].
    by rewrite lookup_insert_ne.
  - intros k b. rewrite searchFilters_lookup.
    repeat match goal with
           | |- context [if ?c then _ else _] => destruct c
           end; intros [= H]; congruence.
Qed.

Lemma truthy_dropEmpty p : truthy (dropEmpty p) = truthy p.
Proof. unfold dropEmpty. by destruct (truthy p) eqn:E. Qed.

Lemma default_dropEmpty p : default "" (dropEmpty p) = default "" p.
Proof.
  unfold dropEmpty. destruct (truthy p) eqn:E; [reflexivity |].
  by apply truthy_false in E as [-> | ->].
Qed.


(** ** Stored sessions *)

Lemma stored_session s :
  mkSession (startTime s) (endTime s) (slotDurationMinutes s) = s.
Proof. by destruct s. Qed.

Lemma storedBody_stored fuel s acc :
  storedBody fuel (stored s) acc = Ok <$> sessionBody fuel s acc.
Proof.
  unfold storedBody, stored. cbn [storedStartTime storedEndTime storedDuration].
  by rewrite stored_session.
Qed.

Lemma forEachStored_stored fuel ss : forall acc,
  forEachStored fuel (map stored ss) acc = Ok <$> forEachSession fuel ss acc.
Proof.
  induction ss as [|s ss IH]; intros acc; [reflexivity |].
  cbn [map forEachStored forEachSession]. rewrite storedBody_stored.
  destruct (sessionBody fuel s acc) as [acc'|]; [apply IH | reflexivity].
Qed.

Lemma forEachStored_throw fuel raw after before : forall acc out,
  storedStartTime raw = None \/ storedEndTime raw = None ->
  forEachSession fuel before acc = Some out ->
  forEachStored fuel (map stored before ++ raw :: after) acc = Some Throw.
Proof.
  induction before as [|s before IH]; intros acc out Hraw.
  - intros _. cbn [map app forEachStored]. unfold storedBody.
    destruct Hraw as [-> | ->]; [reflexivity |].
    by destruct (storedStartTime raw).
  - cbn [map app forEachStored forEachSession]. rewrite storedBody_stored.
    destruct (sessionBody fuel s acc) as [acc'|]; [| discriminate].
    by apply IH.
Qed.

